(** * PosApp_Frontend: the POS checkout client

    A shallow embedding of the four components of the repository
    - the auth token store      (store/useAuth.ts),
    - the HTTP request wrapper  (libs/api.ts),
    - the cart store            (store/useCart.ts),
    - the checkout page         (app/pos/page.tsx),
    over a model of the part of the JavaScript platform they run on:
    IEEE 754 binary64 numbers (Rocq's primitive floats), strings, JSON
    values, [localStorage], [Headers] and [fetch].

    Definitions come first (one module per source file, after the module
    [JS] of platform built-ins); the properties follow. *)

From Stdlib Require Import ZArith Lia Bool List Ascii String.
From Stdlib Require Import Floats DecimalString Zpower.
From stdpp Require Import base option list strings gmap.

Set Warnings "-inexact-float,-register-all".

(* ===================================================================== *)
(** * The JavaScript platform                                             *)
(* ===================================================================== *)

Module JS.

(** ** Characters and strings

    A string is kept as the bytes of its UTF-8 encoding, as a literal of
    this file is: a character outside ASCII is the sequence of its bytes. *)

Definition code (c : ascii) : Z := Z.of_N (N_of_ascii c).

Definition is_digit (c : ascii) : bool :=
  (48 <=? code c)%Z && (code c <=? 57)%Z.

Definition digit_value (c : ascii) : Z := (code c - 48)%Z.

(** White space and line terminators ([WhiteSpace] and [LineTerminator] of
    ECMAScript), each by the bytes of its UTF-8 encoding.  In one byte:
    TAB, LF, VT, FF, CR and the space. *)
Definition white_space_1 (a : ascii) : bool :=
  ((9 <=? code a)%Z && (code a <=? 13)%Z) || (code a =? 32)%Z.

(** In two bytes: the no-break space U+00A0. *)
Definition white_space_2 (a b : ascii) : bool :=
  (code a =? 194)%Z && (code b =? 160)%Z.

(** In three bytes: U+1680; U+2000 to U+200A, the line separator U+2028,
    the paragraph separator U+2029 and U+202F; U+205F; the ideographic
    space U+3000; the byte order mark U+FEFF. *)
Definition white_space_3 (a b c : ascii) : bool :=
  ((code a =? 225)%Z && (code b =? 154)%Z && (code c =? 128)%Z)
  || ((code a =? 226)%Z && (code b =? 128)%Z
      && (((128 <=? code c)%Z && (code c <=? 138)%Z)
          || (code c =? 168)%Z || (code c =? 169)%Z || (code c =? 175)%Z))
  || ((code a =? 226)%Z && (code b =? 129)%Z && (code c =? 159)%Z)
  || ((code a =? 227)%Z && (code b =? 128)%Z && (code c =? 128)%Z)
  || ((code a =? 239)%Z && (code b =? 187)%Z && (code c =? 191)%Z).

(** The string is one character of white space. *)
Definition is_white_space (s : string) : bool :=
  match s with
  | String a EmptyString => white_space_1 a
  | String a (String b EmptyString) => white_space_2 a b
  | String a (String b (String c EmptyString)) => white_space_3 a b c
  | _ => false
  end.

Fixpoint trim_start (s : string) : string :=
  match s with
  | String a r1 =>
      if white_space_1 a then trim_start r1
      else
        match r1 with
        | String b r2 =>
            if white_space_2 a b then trim_start r2
            else
              match r2 with
              | String c r3 => if white_space_3 a b c then trim_start r3 else s
              | EmptyString => s
              end
        | EmptyString => s
        end
  | EmptyString => EmptyString
  end.

Fixpoint trim_end (s : string) : string :=
  match s with
  | EmptyString => EmptyString
  | String c s' =>
      let t := String c (trim_end s') in
      if is_white_space t then EmptyString else t
  end.

(** [String.prototype.trim]. *)
Definition String_trim (s : string) : string := trim_end (trim_start s).

(** [s.replace(/c/g, "")] for a single character [c]. *)
Fixpoint remove_all (c : ascii) (s : string) : string :=
  match s with
  | EmptyString => EmptyString
  | String a s' => if Ascii.eqb a c then remove_all c s' else String a (remove_all c s')
  end.

(** [s.startsWith(p)]. *)
Definition String_startsWith (p s : string) : bool := String.prefix p s.

(** Truthiness of a string: every string but the empty one. *)
Definition truthy_string (s : string) : bool :=
  match s with EmptyString => false | String _ _ => true end.

Definition to_lower (c : ascii) : ascii :=
  if ((65 <=? code c)%Z && (code c <=? 90)%Z)
  then ascii_of_N (N_of_ascii c + 32) else c.

Fixpoint lower_case (s : string) : string :=
  match s with
  | EmptyString => EmptyString
  | String c s' => String (to_lower c) (lower_case s')
  end.

(** ** Numbers: IEEE 754 binary64 *)

Definition Number_EPSILON : float := 0x1p-52%float.

Definition Number_isFinite (x : float) : bool := is_finite x.

(** [x] is an integer when it is finite and has no fractional bits. *)
Definition Number_isInteger (x : float) : bool :=
  match Prim2SF x with
  | S754_zero _ => true
  | S754_finite _ m e => (0 <=? e)%Z || (Zpos m mod 2 ^ (- e) =? 0)%Z
  | _ => false
  end.

(** A number that is not [NaN] has the sign [s]. *)
Definition has_sign (s : bool) (r : spec_float) : Prop :=
  match r with
  | S754_zero s' | S754_infinity s' | S754_finite s' _ _ => s' = s
  | S754_nan => True
  end.

(** A number that is not less than zero: [NaN], a zero, or one with a
    positive sign. *)
Definition not_negative (r : spec_float) : Prop := SFltb r (S754_zero false) = false.

(** The binary64 number nearest to the integer [n] (ties to even). *)
Definition float_of_Z (n : Z) : float :=
  SF2Prim (binary_normalize prec emax n 0 false).

(** [Math.round]: the integer nearest to [x], a tie going towards
    [+Infinity]; [NaN], the infinities and the zeros are returned as they
    are, and a result of zero keeps the sign of [x]. *)
Definition Math_round (x : float) : float :=
  match Prim2SF x with
  | S754_finite s m e =>
      if (0 <=? e)%Z then x
      else
        let d := (2 ^ (- e))%Z in
        let n := ((2 * cond_Zopp s (Zpos m) + d) / (2 * d))%Z in
        if (n =? 0)%Z then (if s then neg_zero else zero) else float_of_Z n
  | _ => x
  end.

(** The binary64 number nearest to [(-1)^neg * n * 10^dexp], for [0 <= n]
    written with [ndigits] decimal digits. *)
Definition float_of_decimal (neg : bool) (n : Z) (ndigits : Z) (dexp : Z) : float :=
  match n with
  | Zpos p =>
      if (400 <? ndigits + dexp)%Z then (if neg then neg_infinity else infinity)
      else if (ndigits + dexp <? -400)%Z then (if neg then neg_zero else zero)
      else if (0 <=? dexp)%Z
      then SF2Prim (binary_normalize prec emax (cond_Zopp neg (n * 10 ^ dexp)) 0 false)
      else SF2Prim (SFdiv prec emax (S754_finite neg p 0)
                          (S754_finite false (Z.to_pos (10 ^ (- dexp))) 0))
  | _ => if neg then neg_zero else zero
  end.

Local Open Scope Z_scope.

(** *** Text to number: ECMAScript's [StringToNumber] *)

Fixpoint span_digits (s : string) : string * string :=
  match s with
  | String c s' =>
      if is_digit c then let '(d, r) := span_digits s' in (String c d, r)
      else (EmptyString, s)
  | EmptyString => (EmptyString, EmptyString)
  end.

Fixpoint digits_value (acc : Z) (s : string) : Z :=
  match s with
  | String c s' => digits_value (10 * acc + digit_value c) s'
  | EmptyString => acc
  end.

Fixpoint all_digits (s : string) : bool :=
  match s with
  | EmptyString => true
  | String c s' => is_digit c && all_digits s'
  end.

(** The number of decimal digits of [n], for [0 < n]. *)
Definition decimal_length (n : Z) : Z :=
  Z.of_nat (String.length (NilZero.string_of_uint (N.to_uint (Z.to_N n)))).

(** The value of a digit in a base up to 16, if it is one. *)
Definition digit_in_base (base : Z) (c : ascii) : option Z :=
  let n := code c in
  let v :=
    if is_digit c then n - 48
    else if (97 <=? n) && (n <=? 102) then n - 87
    else if (65 <=? n) && (n <=? 70) then n - 55
    else 16 in
  if v <? base then Some v else None.

Fixpoint based_value (base : Z) (acc : Z) (s : string) : option Z :=
  match s with
  | String c s' =>
      match digit_in_base base c with
      | Some v => based_value base (base * acc + v) s'
      | None => None
      end
  | EmptyString => Some acc
  end.

(** The exponent part that may follow a decimal mantissa: nothing, or [e]
    or [E], an optional sign and at least one digit. *)
Definition exponent_part (s : string) : option Z :=
  match s with
  | EmptyString => Some 0
  | String c r =>
      if (code c =? 101) || (code c =? 69) then
        let '(neg, r') :=
          match r with
          | String sg r'' =>
              if code sg =? 45 then (true, r'')
              else if code sg =? 43 then (false, r'')
              else (false, r)
          | EmptyString => (false, r)
          end in
        let '(d, rest) := span_digits r' in
        match d, rest with
        | String _ _, EmptyString => Some (cond_Zopp neg (digits_value 0 d))
        | _, _ => None
        end
      else None
  end.

(** An unsigned decimal literal: [Infinity], or digits with an optional
    fraction and exponent, at least one digit before or after the point. *)
Definition unsigned_decimal (neg : bool) (s : string) : float :=
  if String.eqb s "Infinity" then (if neg then neg_infinity else infinity)
  else
    let '(ip, r1) := span_digits s in
    let '(fp, r2) :=
      match r1 with
      | String c r => if code c =? 46 then span_digits r else (EmptyString, r1)
      | EmptyString => (EmptyString, r1)
      end in
    match ip, fp with
    | EmptyString, EmptyString => nan
    | _, _ =>
        match exponent_part r2 with
        | Some e =>
            let n := digits_value 0 (ip +:+ fp) in
            float_of_decimal neg n (decimal_length n) (e - Z.of_nat (String.length fp))
        | None => nan
        end
    end.

Definition StringToNumber (text : string) : float :=
  match String_trim text with
  | EmptyString => zero
  | String c r as s =>
      if code c =? 45 then unsigned_decimal true r
      else if code c =? 43 then unsigned_decimal false r
      else
        match r with
        | String p (String _ _ as ds) =>
            let base :=
              if code c =? 48 then
                if (code p =? 120) || (code p =? 88) then 16
                else if (code p =? 111) || (code p =? 79) then 8
                else if (code p =? 98) || (code p =? 66) then 2
                else 0
              else 0 in
            if base =? 0 then unsigned_decimal false s
            else match based_value base 0 ds with
                 | Some n => float_of_Z n
                 | None => nan
                 end
        | _ => unsigned_decimal false s
        end
  end.

(** *** Number to text: [Number::toString] and [Number.prototype.toFixed] *)

Definition string_of_Z (n : Z) : string :=
  NilZero.string_of_uint (N.to_uint (Z.to_N n)).

Fixpoint zeros (n : nat) : string :=
  match n with O => EmptyString | S n' => String "0" (zeros n') end.

(** The least [n], from [lo] on, with [p / q < 10 ^ n]. *)
Fixpoint decimal_exponent (fuel : nat) (p q : Z) (lo : Z) : Z :=
  match fuel with
  | O => lo
  | S fuel' =>
      let below :=
        if 0 <=? lo then p <? q * 10 ^ lo else p * 10 ^ (- lo) <? q in
      if below then lo else decimal_exponent fuel' p q (lo + 1)
  end.

(** The shortest digits [s], [k] of them, with [s * 10 ^ (n - k)] read back
    as [x = p / q]; [10 ^ (n - 1) <= x < 10 ^ n]. *)
Fixpoint shortest_digits (fuel : nat) (x : float) (p q n k : Z) : Z * Z :=
  let '(a, b) := if 0 <=? n - k then (p, q * 10 ^ (n - k)) else (p * 10 ^ (k - n), q) in
  let lo := a / b in
  let r := a mod b in
  let near_lo := (2 * r <? b) || ((2 * r =? b) && Z.even lo) in
  let '(c1, c2) := if near_lo then (lo, lo + 1) else (lo + 1, lo) in
  let reads_back c := (float_of_decimal false c (decimal_length c) (n - k) =? x)%float in
  let norm c := if c =? 10 ^ k then (10 ^ (k - 1), n + 1) else (c, n) in
  match fuel with
  | O => norm c1
  | S fuel' =>
      if reads_back c1 then norm c1
      else if reads_back c2 then norm c2
      else shortest_digits fuel' x p q n (k + 1)
  end.

Definition Number_toString (x : float) : string :=
  match Prim2SF x with
  | S754_nan => "NaN"
  | S754_zero _ => "0"
  | S754_infinity s => if s then "-Infinity" else "Infinity"
  | S754_finite sg m e =>
      let '(p, q) := if 0 <=? e then (Zpos m * 2 ^ e, 1) else (Zpos m, 2 ^ (- e)) in
      let n0 := decimal_exponent 800 p q (-400) in
      let '(s, n) := shortest_digits 16 (abs x) p q n0 1 in
      let ds := string_of_Z s in
      let k := Z.of_nat (String.length ds) in
      let body :=
        if (k <=? n) && (n <=? 21) then ds +:+ zeros (Z.to_nat (n - k))
        else if (0 <? n) && (n <=? 21) then
          String.substring 0 (Z.to_nat n) ds +:+ "." +:+
          String.substring (Z.to_nat n) (Z.to_nat (k - n)) ds
        else if (-6 <? n) && (n <=? 0) then "0." +:+ zeros (Z.to_nat (- n)) +:+ ds
        else
          let ex := n - 1 in
          let et := (if ex <? 0 then "e-" else "e+") +:+ string_of_Z (Z.abs ex) in
          if k =? 1 then ds +:+ et
          else String.substring 0 1 ds +:+ "." +:+
               String.substring 1 (Z.to_nat (k - 1)) ds +:+ et in
      (if sg then "-" else "") +:+ body
  end.

Definition digit_char (d : Z) : ascii := ascii_of_N (Z.to_N (48 + d)).

Definition two_digits (r : Z) : string :=
  String (digit_char (r / 10)) (String (digit_char (r mod 10)) EmptyString).

(** [x.toFixed(2)]: a number that is not finite, or of magnitude [1e21]
    or more, prints as [Number::toString] does; otherwise the integer [n]
    nearest to [100 * x] (the larger one on a tie) is printed with a point
    before its last two digits. *)
Definition Number_toFixed2 (x : float) : string :=
  match Prim2SF x with
  | S754_finite sg m e =>
      if (1e21 <=? abs x)%float then Number_toString x
      else
        let '(p, q) := if 0 <=? e then (Zpos m * 2 ^ e, 1) else (Zpos m, 2 ^ (- e)) in
        let n := (200 * p + q) / (2 * q) in
        (if sg then "-" else "") +:+ string_of_Z (n / 100) +:+ "." +:+ two_digits (n mod 100)
  | S754_zero _ => "0.00"
  | _ => Number_toString x
  end.

(** ** Values

    What [JSON.parse] returns and what an [unknown] may hold: the data
    values of JavaScript.  An object is the list of its own properties. *)

Inductive jsval :=
| JUndefined
| JNull
| JBool (b : bool)
| JNumber (x : float)
| JString (s : string)
| JArray (elements : list jsval)
| JObject (properties : list (string * jsval)).

Definition typeof (v : jsval) : string :=
  match v with
  | JUndefined => "undefined"
  | JNull => "object"
  | JBool _ => "boolean"
  | JNumber _ => "number"
  | JString _ => "string"
  | JArray _ | JObject _ => "object"
  end.

Fixpoint assoc (k : string) (ps : list (string * jsval)) : option jsval :=
  match ps with
  | [] => None
  | (k', v) :: ps' => if String.eqb k k' then Some v else assoc k ps'
  end.

(** [v.k] for a property name [k] that is neither an array index nor the
    name of a built-in property: [undefined] unless [v] is an object that
    has it. *)
Definition get (v : jsval) (k : string) : jsval :=
  match v with
  | JObject ps => default JUndefined (assoc k ps)
  | _ => JUndefined
  end.

(** [a ?? b]. *)
Definition nullish (a b : jsval) : jsval :=
  match a with
  | JUndefined | JNull => b
  | _ => a
  end.

Fixpoint join (sep : string) (l : list string) : string :=
  match l with
  | [] => EmptyString
  | [s] => s
  | s :: l' => s +:+ sep +:+ join sep l'
  end.

(** [String(v)]; an array is its elements joined by commas, [undefined]
    and [null] elements left empty. *)
Fixpoint ToString (v : jsval) : string :=
  match v with
  | JUndefined => "undefined"
  | JNull => "null"
  | JBool b => if b then "true" else "false"
  | JNumber x => Number_toString x
  | JString s => s
  | JArray l =>
      join ","
        (List.map (fun e => match e with
                            | JUndefined | JNull => EmptyString
                            | _ => ToString e
                            end) l)
  | JObject _ => "[object Object]"
  end.

(** [Number(v)]. *)
Definition Number (v : jsval) : float :=
  match v with
  | JUndefined => nan
  | JNull => zero
  | JBool b => if b then one else zero
  | JNumber x => x
  | JString s => StringToNumber s
  | JArray _ | JObject _ => StringToNumber (ToString v)
  end.

(** ** JSON

    [json_image v] is the value that [JSON.parse(JSON.stringify(v))]
    returns, [None] where [JSON.stringify] returns [undefined]: a property
    whose value is [undefined] is left out, an [undefined] array element
    and a number that is not finite become [null], and negative zero
    becomes zero. *)
Fixpoint json_image (v : jsval) : option jsval :=
  match v with
  | JUndefined => None
  | JNumber x =>
      Some (if Number_isFinite x then JNumber (if is_zero x then zero else x) else JNull)
  | JArray l => Some (JArray (List.map (fun e => default JNull (json_image e)) l))
  | JObject ps =>
      Some (JObject
              ((fix props (ps : list (string * jsval)) : list (string * jsval) :=
                  match ps with
                  | [] => []
                  | (k, e) :: ps' =>
                      match json_image e with
                      | Some e' => (k, e') :: props ps'
                      | None => props ps'
                      end
                  end) ps))
  | _ => Some v
  end.

Definition hex_digit (n : Z) : ascii :=
  ascii_of_N (Z.to_N (if n <? 10 then 48 + n else 87 + n)).

(** A string between double quotes, with the escapes of JSON. *)
Fixpoint quote_chars (s : string) : string :=
  match s with
  | EmptyString => EmptyString
  | String c s' =>
      let n := code c in
      let esc (e : string) := String "\" e in
      (if n =? 34 then esc (String c EmptyString)
       else if n =? 92 then esc "\"
       else if n =? 8 then esc "b"
       else if n =? 9 then esc "t"
       else if n =? 10 then esc "n"
       else if n =? 12 then esc "f"
       else if n =? 13 then esc "r"
       else if n <? 32 then
         esc ("u00" +:+ String (hex_digit (n / 16)) (String (hex_digit (n mod 16)) EmptyString))
       else String c EmptyString) +:+ quote_chars s'
  end.

Definition quote : ascii := ascii_of_N 34.

Definition QuoteJSONString (s : string) : string :=
  String quote (quote_chars s +:+ String quote EmptyString).

(** The characters of the JSON text of a value. *)
Fixpoint JSON_print (v : jsval) : string :=
  match v with
  | JUndefined | JNull => "null"
  | JBool b => if b then "true" else "false"
  | JNumber x =>
      if Number_isFinite x then
        (if is_zero x && get_sign x then "-0" else Number_toString x)
      else "null"
  | JString s => QuoteJSONString s
  | JArray l => String "[" (join "," (List.map JSON_print l) +:+ "]")
  | JObject ps =>
      String "{"
        (join "," (List.map (fun '(k, e) => QuoteJSONString k +:+ ":" +:+ JSON_print e) ps)
         +:+ "}")
  end.

(** Texts that may be JSON.  The program does not look inside such a
    text: it tests it for emptiness, hands it to [JSON.parse], shows it or
    passes it on.  A text is kept in one of two forms: [Doc v] is a JSON
    text, represented by the value [v] that [JSON.parse] returns on it;
    [Raw s] is the characters [s] of a text that is not put through
    [JSON.parse] or on which [JSON.parse] throws a [SyntaxError].
    [JSON.stringify] yields the [Doc] of the JSON image of its argument:
    this is ECMAScript's guarantee on what parsing its output gives. *)
Inductive text :=
| Doc (v : jsval)
| Raw (s : string).

Definition chars (t : text) : string :=
  match t with
  | Doc v => JSON_print v
  | Raw s => s
  end.

(** Truthiness of a text: every text but the empty one. *)
Definition truthy_text (t : text) : bool := truthy_string (chars t).

(** [JSON.parse]; [None] stands for the [SyntaxError] it throws. *)
Definition JSON_parse (t : text) : option jsval :=
  match t with
  | Doc v => Some v
  | Raw _ => None
  end.

(** [JSON.stringify]; [None] stands for the [undefined] it returns on
    [undefined]. *)
Definition JSON_stringify (v : jsval) : option text := Doc <$> json_image v.

(** ** Storage, window and events

    A [Storage] maps keys to texts; it is taken to have room for what is
    stored here, so that [setItem] does not throw. *)

Abbreviation Storage := (gmap string text).

Definition getItem (k : string) (st : Storage) : option text := st !! k.
Definition setItem (k : string) (t : text) (st : Storage) : Storage := <[k := t]> st.
Definition removeItem (k : string) (st : Storage) : Storage := delete k st.

Record CustomEvent := { type : string; detail : jsval }.

(** A window: its [localStorage], when there is one, and the events
    dispatched on it so far, latest first. *)
Record Window := { localStorage : option Storage; dispatched : list CustomEvent }.

(** The global scope: [window] is defined or not. *)
Abbreviation Global := (option Window).

Definition dispatchEvent (e : CustomEvent) (w : Window) : Window :=
  {| localStorage := localStorage w; dispatched := e :: dispatched w |}.

Definition with_storage (st : Storage) (w : Window) : Window :=
  {| localStorage := Some st; dispatched := dispatched w |}.

(** ** Headers, requests and responses *)

(** A [Headers] object: names are case-insensitive and kept in lower
    case. *)
Abbreviation Headers := (gmap string string).

(** A string that can be passed as a [ByteString]: every character of it
    is at most U+00FF, so in UTF-8 a byte below 128, or the byte 194 or 195
    followed by a continuation byte. *)
Fixpoint is_ByteString (s : string) : bool :=
  match s with
  | EmptyString => true
  | String a r =>
      if (code a <? 128)%Z then is_ByteString r
      else
        match r with
        | String b r' =>
            ((code a =? 194)%Z || (code a =? 195)%Z)
            && (128 <=? code b)%Z && (code b <=? 191)%Z && is_ByteString r'
        | EmptyString => false
        end
  end.

(** HTTP white space: TAB, LF, CR and the space. *)
Definition is_HTTP_white_space (c : ascii) : bool :=
  (code c =? 9)%Z || (code c =? 10)%Z || (code c =? 13)%Z || (code c =? 32)%Z.

Fixpoint strip_start (s : string) : string :=
  match s with
  | String c s' => if is_HTTP_white_space c then strip_start s' else s
  | EmptyString => EmptyString
  end.

Fixpoint strip_end (s : string) : string :=
  match s with
  | EmptyString => EmptyString
  | String c s' =>
      match strip_end s' with
      | EmptyString => if is_HTTP_white_space c then EmptyString else String c EmptyString
      | t => String c t
      end
  end.

(** A header value normalized: without the HTTP white space before and
    after it. *)
Definition normalize_value (value : string) : string := strip_end (strip_start value).

(** A header name: a token of HTTP that is not empty. *)
Definition is_token_char (c : ascii) : bool :=
  let n := code c in
  is_digit c || ((65 <=? n)%Z && (n <=? 90)%Z) || ((97 <=? n)%Z && (n <=? 122)%Z)
  || (n =? 33)%Z || ((35 <=? n)%Z && (n <=? 39)%Z) || (n =? 42)%Z || (n =? 43)%Z
  || (n =? 45)%Z || (n =? 46)%Z || ((94 <=? n)%Z && (n <=? 96)%Z)
  || (n =? 124)%Z || (n =? 126)%Z.

Fixpoint all_chars (p : ascii -> bool) (s : string) : bool :=
  match s with
  | EmptyString => true
  | String c s' => p c && all_chars p s'
  end.

Definition is_header_name (name : string) : bool :=
  truthy_string name && all_chars is_token_char name.

(** A header value: no HTTP white space before or after it, and no NUL,
    LF or CR in it. *)
Definition is_header_value (value : string) : bool :=
  String.eqb (normalize_value value) value
  && all_chars (fun c => negb ((code c =? 0)%Z || (code c =? 10)%Z || (code c =? 13)%Z))
               value.

(** [headers.set(name, value)]: the value is normalized and stored under
    the name; [None] stands for the [TypeError] thrown when the name or the
    value is not a [ByteString], the name is not a header name, or the
    normalized value is not a header value. *)
Definition Headers_set (name value : string) (h : Headers) : option Headers :=
  if is_ByteString name && is_ByteString value then
    let value := normalize_value value in
    if is_header_name name && is_header_value value
    then Some (<[lower_case name := value]> h)
    else None
  else None.
(** [headers.get(name)] and [headers.has(name)], for a header name. *)
Definition Headers_get (name : string) (h : Headers) : option string :=
  h !! lower_case name.
Definition Headers_has (name : string) (h : Headers) : bool :=
  bool_decide (is_Some (Headers_get name h)).

(** A request body: a string, or anything else ([Blob], [FormData], ...),
    of which only the bytes are kept. *)
Inductive BodyInit :=
| BodyString (t : text)
| BodyOther (bytes : list ascii).

Record Request := {
  url : string;
  method : option string;
  req_headers : Headers;
  req_body : option BodyInit;
}.

Record Response := {
  status : Z;
  statusText : string;
  responseText : text;
}.

(** [response.ok]: a status in the range 200-299. *)
Definition ok (r : Response) : bool := (200 <=? status r) && (status r <=? 299).

(** What [await fetch(...)] does: it yields a response, or throws a
    [TypeError] when the request could not be made. *)
Inductive FetchOutcome :=
| Fulfilled (r : Response)
| Rejected (reason : string).

End JS.

(* ===================================================================== *)
(** * store/useAuth.ts: the auth token store                              *)
(* ===================================================================== *)

Module Auth.
Import JS.

Definition AUTH_STORAGE_KEY : string := "pos.accessToken".
Definition AUTH_EVENT : string := "pos-auth-changed".

Definition isBrowser (g : Global) : bool :=
  match g with
  | Some w => bool_decide (is_Some (localStorage w))
  | None => false
  end.

(** [window.localStorage], read after [isBrowser] has answered yes. *)
Definition storage (g : Global) : Storage := default empty (g ≫= localStorage).

Definition getAccessToken (g : Global) : option string :=
  if negb (isBrowser g) then None
  else chars <$> getItem AUTH_STORAGE_KEY (storage g).

Definition emitAuthChange (token : option string) (g : Global) : Global :=
  if negb (isBrowser g) then g
  else dispatchEvent {| type := AUTH_EVENT; detail := from_option JString JNull token |} <$> g.

Definition clearAccessToken (g : Global) : Global :=
  if negb (isBrowser g) then g
  else emitAuthChange None (with_storage (removeItem AUTH_STORAGE_KEY (storage g)) <$> g).

Definition setAccessToken (token : option string) (g : Global) : Global :=
  if negb (isBrowser g) then g
  else
    match token with
    | Some t =>
        if negb (truthy_string t) then clearAccessToken g
        else emitAuthChange (Some t)
               (with_storage (setItem AUTH_STORAGE_KEY (Raw t) (storage g)) <$> g)
    | None => clearAccessToken g
    end.

End Auth.

(* ===================================================================== *)
(** * libs/api.ts: the HTTP request wrapper                               *)
(* ===================================================================== *)

Module Api.
Import JS.

Record ApiError := { err_status : Z; err_body : jsval; err_message : string }.

Definition show_status (n : Z) : string :=
  if (n <? 0)%Z then "-" +:+ string_of_Z (- n) else string_of_Z n.

(** [new ApiError(status, body, message)]. *)
Definition new_ApiError (status : Z) (body : jsval) (message : option string) : ApiError :=
  {| err_status := status;
     err_body := body;
     err_message := default ("Request failed with status " +:+ show_status status) message |}.

(** What a [throw] may carry here: an [ApiError], or a [TypeError], that
    of a [fetch] that failed or that of a header that [Headers] refuses.
    The message of a [TypeError] differs between engines and is not looked
    at; for a refused header it is kept as [INVALID_HEADER]. *)
Inductive thrown :=
| ThrownApiError (e : ApiError)
| ThrownTypeError (reason : string).

Definition INVALID_HEADER : string := "Invalid header value".

(** [error instanceof ApiError]. *)
Definition instanceof_ApiError (e : thrown) : bool :=
  match e with
  | ThrownApiError _ => true
  | ThrownTypeError _ => false
  end.

Inductive completion (A : Type) :=
| Return (a : A)
| Throw (e : thrown).
Arguments Return {A} a.
Arguments Throw {A} e.

(** [RequestInit & { auth?: boolean }]; of the fields that [apiFetch]
    passes on untouched, the method is kept. *)
Record ApiFetchOptions := {
  opt_auth : option bool;
  opt_headers : option Headers;
  opt_body : option BodyInit;
  opt_method : option string;
}.

Definition no_options : ApiFetchOptions :=
  {| opt_auth := None; opt_headers := None; opt_body := None; opt_method := None |}.

(** [s.replace(/\/$/, "")]. *)
Fixpoint strip_trailing_slash (s : string) : string :=
  match s with
  | EmptyString => EmptyString
  | String c EmptyString => if (code c =? 47)%Z then EmptyString else s
  | String c s' => String c (strip_trailing_slash s')
  end.

Section WithEnvironment.

(** [process.env.NEXT_PUBLIC_API_BASE_URL], and the network behind
    [fetch]. *)
Variable NEXT_PUBLIC_API_BASE_URL : option string.
Variable fetch : Request -> FetchOutcome.

Definition API_BASE_URL : string :=
  strip_trailing_slash (default EmptyString NEXT_PUBLIC_API_BASE_URL).

(** [apiFetch(path, options)], in the global scope [g]: the request it
    hands to [fetch], if it gets that far, and how it completes. *)
Definition apiFetch (g : Global) (path : string) (options : ApiFetchOptions)
  : option Request * completion jsval :=
  let auth := default true (opt_auth options) in
  let headers := opt_headers options in
  let body := opt_body options in
  let normalizedPath := if String_startsWith "/" path then path else "/" +:+ path in
  let url := API_BASE_URL +:+ normalizedPath in
  let finalHeaders : Headers := default empty headers in
  let authorized : option Headers :=
    if auth then
      match Auth.getAccessToken g with
      | Some token =>
          if truthy_string token
          then Headers_set "Authorization" ("Bearer " +:+ token) finalHeaders
          else Some finalHeaders
      | None => Some finalHeaders
      end
    else Some finalHeaders in
  let typed : option Headers :=
    finalHeaders ← authorized;
    match body with
    | Some (BodyString _) =>
        if negb (Headers_has "Content-Type" finalHeaders)
        then Headers_set "Content-Type" "application/json" finalHeaders
        else Some finalHeaders
    | _ => Some finalHeaders
    end in
  match typed with
  | None => (None, Throw (ThrownTypeError INVALID_HEADER))
  | Some finalHeaders =>
      let request :=
        {| url := url; method := opt_method options;
           req_headers := finalHeaders; req_body := body |} in
      (Some request,
       match fetch request with
       | Rejected reason => Throw (ThrownTypeError reason)
       | Fulfilled response =>
           let responseText := responseText response in
           if negb (ok response) then
             let parsed :=
               if truthy_text responseText then
                 match JSON_parse responseText with
                 | Some v => v
                 | None => JString (chars responseText)
                 end
               else JNull in
             Throw (ThrownApiError
                      (new_ApiError (status response) parsed (Some (statusText response))))
           else if negb (truthy_text responseText) then Return JUndefined
           else
             match JSON_parse responseText with
             | Some v => Return v
             | None =>
                 Throw (ThrownApiError
                          (new_ApiError (status response) (JString (chars responseText))
                             (Some "Failed to parse response JSON"%string)))
             end
       end)
  end.

End WithEnvironment.

End Api.

(* ===================================================================== *)
(** * store/useCart.ts: the cart store                                    *)
(* ===================================================================== *)

Module Cart.
Import JS.

Record CartItem := {
  productId : float;
  name : string;
  quantity : float;
  unitPrice : float;
  sku : option string;
  taxRate : option float;
}.

Record CartTotals := {
  subtotal : float;
  tax : float;
  total : float;
}.

Definition CART_STORAGE_KEY : string := "pos.cart".
Definition CART_EVENT : string := "pos-cart-changed".

Definition isBrowser (g : Global) : bool :=
  match g with
  | Some w => bool_decide (is_Some (localStorage w))
  | None => false
  end.

Definition storage (g : Global) : Storage := default empty (g ≫= localStorage).

Definition roundCurrency (value : float) : float :=
  (Math_round ((value + Number_EPSILON) * 100) / 100)%float.

(** A cart item as a JavaScript object, and a cart as an array. *)
Definition item_value (i : CartItem) : jsval :=
  JObject [ ("productId", JNumber (productId i));
            ("name", JString (name i));
            ("quantity", JNumber (quantity i));
            ("unitPrice", JNumber (unitPrice i));
            ("sku", from_option JString JUndefined (sku i));
            ("taxRate", from_option JNumber JUndefined (taxRate i)) ]%string.

Definition items_value (items : list CartItem) : jsval :=
  JArray (List.map item_value items).

Definition sanitizeCartItem (input : jsval) : option CartItem :=
  if negb (String.eqb (typeof input) "object")
     || match input with JNull => true | _ => false end
  then None
  else
    let raw := input in
    let productId := Number (nullish (get raw "productId") (get raw "product_id")) in
    let quantity := Number (get raw "quantity") in
    let unitPrice :=
      Number (nullish (nullish (get raw "unitPrice") (get raw "unit_price"))
                      (get raw "price")) in
    let nameValue := nullish (get raw "name") (get raw "productName") in
    let skuValue := nullish (get raw "sku") (get raw "productSku") in
    let taxRateRaw := nullish (get raw "taxRate") (get raw "tax_rate") in
    if negb (Number_isInteger productId) || (productId <=? 0)%float then None
    else if negb (Number_isFinite quantity) || (quantity <=? 0)%float then None
    else if negb (Number_isFinite unitPrice) then None
    else
      let name := match nameValue with JString s => s | _ => EmptyString end in
      let sku := match skuValue with JString s => Some s | _ => None end in
      let taxRate :=
        if match taxRateRaw with JUndefined => false | _ => true end
           && Number_isFinite (Number taxRateRaw)
        then Some (Number taxRateRaw)
        else None in
      Some {| productId := productId; name := name; quantity := quantity;
              unitPrice := unitPrice; sku := sku; taxRate := taxRate |}.

Definition emitCartChange (items : list CartItem) (g : Global) : Global :=
  if negb (isBrowser g) then g
  else dispatchEvent {| type := CART_EVENT; detail := items_value items |} <$> g.

Definition readCartItems (g : Global) : list CartItem :=
  if negb (isBrowser g) then []
  else
    match getItem CART_STORAGE_KEY (storage g) with
    | None => []
    | Some rawValue =>
        if negb (truthy_text rawValue) then []
        else
          match JSON_parse rawValue with
          | Some (JArray parsed) => omap sanitizeCartItem parsed
          | Some _ => []
          | None => []
          end
    end.

(** [String(JSON.stringify(v))], as [setItem] stores it. *)
Definition stringified (v : jsval) : text :=
  default (Raw "undefined") (JSON_stringify v).

Definition writeCartItems (items : list CartItem) (g : Global) : Global :=
  if negb (isBrowser g) then g
  else
    emitCartChange items
      (with_storage (setItem CART_STORAGE_KEY (stringified (items_value items)) (storage g))
         <$> g).

Definition clearCartItems (g : Global) : Global :=
  if negb (isBrowser g) then g
  else emitCartChange [] (with_storage (removeItem CART_STORAGE_KEY (storage g)) <$> g).

Definition calculateCartTotals (items : list CartItem) : CartTotals :=
  fold_left
    (fun accumulator item =>
       let lineSubtotal := roundCurrency (unitPrice item * quantity item) in
       let lineTax :=
         roundCurrency (lineSubtotal * (default 0%float (taxRate item) / 100)) in
       {| subtotal := roundCurrency (subtotal accumulator + lineSubtotal);
          tax := roundCurrency (tax accumulator + lineTax);
          total := roundCurrency (total accumulator + lineSubtotal + lineTax) |})%float
    items
    {| subtotal := 0; tax := 0; total := 0 |}.

End Cart.

(* ===================================================================== *)
(** * app/pos/page.tsx: the checkout page                                 *)
(* ===================================================================== *)

Module Page.
Import JS.
Import Cart.

Inductive PaymentMethod := cash | card | qr | other.

Definition method_text (m : PaymentMethod) : string :=
  match m with
  | cash => "cash"
  | card => "card"
  | qr => "qr"
  | other => "other"
  end.

(** [/^-?\d*(\.\d{0,2})?$/.test(s)]. *)
Definition money_pattern (s : string) : bool :=
  let unsigned :=
    match s with
    | String c r => if (code c =? 45)%Z then r else s
    | EmptyString => s
    end in
  match snd (span_digits unsigned) with
  | EmptyString => true
  | String c r =>
      if (code c =? 46)%Z then
        let '(decimals, rest) := span_digits r in
        (String.length decimals <=? 2)%nat && negb (truthy_string rest)
      else false
  end.

Definition parseMoney (input : string) : option float :=
  let trimmed := String_trim input in
  if negb (truthy_string trimmed) then None
  else
    let normalized := remove_all "," trimmed in
    if negb (money_pattern normalized)
       || String.eqb normalized "-"
       || String.eqb normalized "."
       || String.eqb normalized "-."
    then
      let numeric := StringToNumber normalized in
      if Number_isFinite numeric then Some (Math_round (numeric * 100) / 100)%float
      else None
    else
      let numeric := StringToNumber normalized in
      if negb (Number_isFinite numeric) then None
      else Some (Math_round (numeric * 100) / 100)%float.

Definition roundCurrency (value : float) : float :=
  (Math_round ((value + Number_EPSILON) * 100) / 100)%float.

(** The state of the page component, one field per [useState].  The
    error message is [null] ([None]) or the value set as the message; the
    order result is [null] at first and then whatever value [apiFetch]
    returned, which may be [undefined] or [null] again. *)
Record PageState := {
  cartItems : list CartItem;
  paymentMethod : PaymentMethod;
  receivedAmount : string;
  memo : string;
  isSubmitting : bool;
  errorMessage : option jsval;
  orderResult : jsval;
}.

Definition initialState : PageState :=
  {| cartItems := []; paymentMethod := cash; receivedAmount := EmptyString;
     memo := EmptyString; isSubmitting := false; errorMessage := None;
     orderResult := JNull |}.

(** The values derived with [useMemo]. *)
Definition totals (st : PageState) : CartTotals := calculateCartTotals (cartItems st).

Definition parsedReceivedAmount (st : PageState) : option float :=
  parseMoney (receivedAmount st).

(** [computedChange] and [shortage], as functions of the two values they
    are recomputed from. *)
Definition computedChange (parsedReceivedAmount : option float) (total : float) : float :=
  match parsedReceivedAmount with
  | None => 0
  | Some parsed =>
      let diff := (parsed - total)%float in
      if (0 <? diff)%float then roundCurrency diff else 0
  end%float.

Definition shortage (parsedReceivedAmount : option float) (total : float) : float :=
  match parsedReceivedAmount with
  | None => 0
  | Some parsed =>
      if (total <=? parsed)%float then 0
      else roundCurrency (total - parsed)
  end%float.

(** The effect that fills in the received amount for a tender other than
    cash. *)
Definition autofill (st : PageState) : PageState :=
  if negb (match paymentMethod st with cash => true | _ => false end)
     && negb (Nat.eqb (List.length (cartItems st)) 0)
     && negb (truthy_string (receivedAmount st))
  then {| cartItems := cartItems st; paymentMethod := paymentMethod st;
          receivedAmount := Number_toFixed2 (total (totals st)); memo := memo st;
          isSubmitting := isSubmitting st; errorMessage := errorMessage st;
          orderResult := orderResult st |}
  else st.

Definition MSG_EMPTY_CART : string := "カートに商品がありません。".
Definition MSG_NO_TOKEN : string := "認証情報が見つかりません。ログインし直してください。".
Definition MSG_NO_AMOUNT : string := "受領金額を入力してください。".
Definition MSG_NOT_POSITIVE : string := "受領金額は0より大きい値にしてください。".
Definition MSG_CHECKOUT_FAILED : string := "会計処理に失敗しました。".
Definition MSG_UNEXPECTED : string := "予期せぬエラーが発生しました。".

Definition setErrorMessage (m : option jsval) (st : PageState) : PageState :=
  {| cartItems := cartItems st; paymentMethod := paymentMethod st;
     receivedAmount := receivedAmount st; memo := memo st;
     isSubmitting := isSubmitting st; errorMessage := m;
     orderResult := orderResult st |}.

Definition setOrderResult (r : jsval) (st : PageState) : PageState :=
  {| cartItems := cartItems st; paymentMethod := paymentMethod st;
     receivedAmount := receivedAmount st; memo := memo st;
     isSubmitting := isSubmitting st; errorMessage := errorMessage st;
     orderResult := r |}.

Definition setIsSubmitting (b : bool) (st : PageState) : PageState :=
  {| cartItems := cartItems st; paymentMethod := paymentMethod st;
     receivedAmount := receivedAmount st; memo := memo st;
     isSubmitting := b; errorMessage := errorMessage st;
     orderResult := orderResult st |}.

Definition setCartItems (items : list CartItem) (st : PageState) : PageState :=
  {| cartItems := items; paymentMethod := paymentMethod st;
     receivedAmount := receivedAmount st; memo := memo st;
     isSubmitting := isSubmitting st; errorMessage := errorMessage st;
     orderResult := orderResult st |}.

Definition setReceivedAmount (s : string) (st : PageState) : PageState :=
  {| cartItems := cartItems st; paymentMethod := paymentMethod st;
     receivedAmount := s; memo := memo st;
     isSubmitting := isSubmitting st; errorMessage := errorMessage st;
     orderResult := orderResult st |}.

Definition setMemo (s : string) (st : PageState) : PageState :=
  {| cartItems := cartItems st; paymentMethod := paymentMethod st;
     receivedAmount := receivedAmount st; memo := s;
     isSubmitting := isSubmitting st; errorMessage := errorMessage st;
     orderResult := orderResult st |}.

(** The request body of [POST /orders]. *)
Record OrderCreateItem := { product_id : float; item_quantity : float }.
Record OrderCreatePayment := { payment_method : PaymentMethod; amount : string }.
Record OrderCreateRequest := {
  items : list OrderCreateItem;
  payments : list OrderCreatePayment;
  order_memo : option string;
}.

Definition payload_value (p : OrderCreateRequest) : jsval :=
  JObject
    ([ ("items",
        JArray (List.map (fun i => JObject [ ("product_id", JNumber (product_id i));
                                             ("quantity", JNumber (item_quantity i)) ])
                         (items p)));
       ("payments",
        JArray (List.map (fun q => JObject [ ("method", JString (method_text (payment_method q)));
                                             ("amount", JString (amount q)) ])
                         (payments p))) ]
     ++ match order_memo p with
        | Some m => [ ("memo", JString m) ]
        | None => []
        end).

(** What one run of a handler leaves behind: the page state, the global
    scope and the requests handed to [fetch], in order. *)
Record Outcome := {
  state : PageState;
  global : Global;
  requests : list Request;
}.

Section WithEnvironment.

Variable NEXT_PUBLIC_API_BASE_URL : option string.
Variable fetch : Request -> FetchOutcome.

(** [handleSubmit], run to completion from the state [st0] of the render
    it belongs to. *)
Definition handleSubmit (g : Global) (st0 : PageState) : Outcome :=
  let st := setOrderResult JNull (setErrorMessage None st0) in
  if Nat.eqb (List.length (cartItems st0)) 0 then
    {| state := setErrorMessage (Some (JString MSG_EMPTY_CART)) st;
       global := g; requests := [] |}
  else
    let token := Auth.getAccessToken g in
    if negb (from_option truthy_string false token) then
      {| state := setErrorMessage (Some (JString MSG_NO_TOKEN)) st;
         global := g; requests := [] |}
    else
      match parsedReceivedAmount st0 with
      | None =>
          {| state := setErrorMessage (Some (JString MSG_NO_AMOUNT)) st;
             global := g; requests := [] |}
      | Some parsed =>
          if (parsed <=? 0)%float then
            {| state := setErrorMessage (Some (JString MSG_NOT_POSITIVE)) st;
               global := g; requests := [] |}
          else
            let payload :=
              {| items := List.map (fun item => {| product_id := productId item;
                                                   item_quantity := quantity item |})
                                   (cartItems st0);
                 payments := [ {| payment_method := paymentMethod st0;
                                  amount := Number_toFixed2 parsed |} ];
                 order_memo := None |} in
            let trimmedMemo := String_trim (memo st0) in
            let payload :=
              if truthy_string trimmedMemo
              then {| items := items payload; payments := payments payload;
                      order_memo := Some trimmedMemo |}
              else payload in
            let st := setIsSubmitting true st in
            let '(request, completion) :=
              Api.apiFetch NEXT_PUBLIC_API_BASE_URL fetch g "/orders"
                {| Api.opt_auth := None; Api.opt_headers := None;
                   Api.opt_body := BodyString <$> JSON_stringify (payload_value payload);
                   Api.opt_method := Some "POST"%string |} in
            match completion with
            | Api.Return response =>
                {| state :=
                     setIsSubmitting false
                       (setMemo EmptyString
                          (setReceivedAmount EmptyString
                             (setCartItems [] (setOrderResult response st))));
                   global := clearCartItems g;
                   requests := option_list request |}
            | Api.Throw error =>
                let message :=
                  match error with
                  | Api.ThrownApiError e =>
                      (* error instanceof ApiError *)
                      let detail :=
                        match Api.err_body e with
                        | JString s => JString s
                        | b => get b "detail"
                        end in
                      nullish detail (JString MSG_CHECKOUT_FAILED)
                  | Api.ThrownTypeError _ => JString MSG_UNEXPECTED
                  end in
                {| state := setIsSubmitting false (setErrorMessage (Some message) st);
                   global := g;
                   requests := option_list request |}
            end
      end.

Definition handleClearCart (g : Global) (st : PageState) : Outcome :=
  {| state := setCartItems [] st; global := clearCartItems g; requests := [] |}.

End WithEnvironment.

End Page.

(* ===================================================================== *)
(** * app/pos/page.tsx: what the page renders                             *)
(* ===================================================================== *)

Module View.
Import JS Cart Page.

(** The total of one row of the table of items. *)
Definition lineTotal (item : CartItem) : float :=
  let lineSubtotal := roundCurrency (unitPrice item * quantity item) in
  let lineTax :=
    roundCurrency (lineSubtotal * (default 0%float (taxRate item) / 100)) in
  roundCurrency (lineSubtotal + lineTax)%float.

(** Truthiness of a number: every number but the zeros and [NaN]. *)
Definition truthy_number (x : float) : bool := negb (is_zero x || is_nan x).

(** The text of the read-only change field. *)
Definition changeText (computedChange : float) : string :=
  if truthy_number computedChange then Number_toFixed2 computedChange else "0.00".

Section WithFormatter.

(** [currencyFormatter.format], the yen formatter of [Intl.NumberFormat]
    for the locale [ja-JP]. *)
Variable currencyFormatter_format : float -> string.

(** [formatCurrency(value)], for a value that is a number or a string. *)
Definition formatCurrency (value : float + string) : string :=
  let of_number (value : float) :=
    if negb (Number_isFinite value) then currencyFormatter_format 0
    else currencyFormatter_format value in
  match value with
  | inr text =>
      let numeric := Number (JString text) in
      if Number_isFinite numeric then of_number numeric else text
  | inl number => of_number number
  end.

End WithFormatter.

End View.

(* ===================================================================== *)
(** * Observations on the global scope                                    *)
(* ===================================================================== *)

Module Scope.
Import JS Cart.

(** The events dispatched so far, none outside a window. *)
Definition events (g : Global) : list CustomEvent := default [] (dispatched <$> g).


End Scope.

(* ===================================================================== *)
(** * Reference definitions, following the specification's words         *)
(* ===================================================================== *)

Module Spec.
Import JS Cart.

(** Rounding to two decimals with the steps in the order in which the
    specification lists them: multiply by 100, add the nudge, round to the
    nearest integer, divide by 100. *)
Definition round2_nudge_after_scaling (value : float) : float :=
  (Math_round (value * 100 + Number_EPSILON) / 100)%float.

(** The same steps with the nudge added to the value itself, before the
    multiplication. *)
Definition round2_nudge_before_scaling (value : float) : float :=
  (Math_round ((value + Number_EPSILON) * 100) / 100)%float.

Section Totals.

Variable round2 : float -> float.

Definition no_totals : CartTotals := {| subtotal := 0; tax := 0; total := 0 |}.

(** One line folded into the running totals: the line's subtotal and tax
    are rounded, then each running sum is rounded after the addition. *)
Definition add_line (running : CartTotals) (item : CartItem) : CartTotals :=
  let rate := match taxRate item with Some r => r | None => 0%float end in
  let lineSubtotal := round2 (unitPrice item * quantity item)%float in
  let lineTax := round2 (lineSubtotal * (rate / 100))%float in
  {| subtotal := round2 (subtotal running + lineSubtotal)%float;
     tax := round2 (tax running + lineTax)%float;
     total := round2 (total running + lineSubtotal + lineTax)%float |}.

Fixpoint add_lines (running : CartTotals) (items : list CartItem) : CartTotals :=
  match items with
  | [] => running
  | item :: rest => add_lines (add_line running item) rest
  end.

Definition totals_by_steps (items : list CartItem) : CartTotals :=
  add_lines no_totals items.

(** Rounding once, at the end, for comparison. *)
Definition totals_rounded_at_end (items : list CartItem) : CartTotals :=
  let raw :=
    fold_left
      (fun running item =>
         let rate := match taxRate item with Some r => r | None => 0%float end in
         let lineSubtotal := (unitPrice item * quantity item)%float in
         let lineTax := (lineSubtotal * (rate / 100))%float in
         {| subtotal := (subtotal running + lineSubtotal)%float;
            tax := (tax running + lineTax)%float;
            total := (total running + lineSubtotal + lineTax)%float |})
      items no_totals in
  {| subtotal := round2 (subtotal raw); tax := round2 (tax raw);
     total := round2 (total raw) |}.

End Totals.

(** The received-amount parser without its pattern test. *)
Definition parseMoney_reference (input : string) : option float :=
  let trimmed := String_trim input in
  match trimmed with
  | EmptyString => None
  | _ =>
      let numeric := StringToNumber (remove_all "," trimmed) in
      if Number_isFinite numeric
      then Some (Math_round (numeric * 100) / 100)%float
      else None
  end.

(** A non-null object. *)
Definition is_object (v : jsval) : Prop := typeof v = "object"%string /\ v <> JNull.

(** The first of the listed properties of [v] that is neither [undefined]
    nor [null]; the last one, whatever it holds, when the earlier ones are
    all [undefined] or [null]. *)
Fixpoint first_present (v : jsval) (names : list string) : jsval :=
  match names with
  | [] => JUndefined
  | [k] => get v k
  | k :: rest =>
      match get v k with
      | JUndefined | JNull => first_present v rest
      | found => found
      end
  end.

Definition text_or_empty (v : jsval) : string :=
  match v with JString s => s | _ => EmptyString end.

Definition text_only (v : jsval) : option string :=
  match v with JString s => Some s | _ => None end.

Definition finite_number_only (v : jsval) : option float :=
  if Number_isFinite (Number v) then Some (Number v) else None.

(** The sanitization invariant of a cart item. *)
Definition sanitized (i : CartItem) : bool :=
  Number_isInteger (productId i) && (0 <? productId i)%float
  && Number_isFinite (quantity i) && (0 <? quantity i)%float
  && Number_isFinite (unitPrice i)
  && match taxRate i with Some r => Number_isFinite r | None => true end.

(** JSON has no negative zero: a zero is read back as [+0]. *)
Definition unsigned_zero (x : float) : float := if is_zero x then zero else x.

(** A cart item as it comes back from storage. *)
Definition read_back (i : CartItem) : CartItem :=
  {| productId := productId i; name := name i; quantity := quantity i;
     unitPrice := unsigned_zero (unitPrice i); sku := sku i;
     taxRate := unsigned_zero <$> taxRate i |}.

Definition no_negative_zero (i : CartItem) : Prop :=
  unitPrice i <> neg_zero /\ taxRate i <> Some neg_zero.

(** Whether the auth token store holds a token: a text that is not
    empty. *)
Definition holds_token (g : Global) : bool :=
  from_option truthy_string false (Auth.getAccessToken g).

(** A submission rejected by a local validation: the message is shown, no
    request is made, and the global scope (the stored cart and token with
    it), the cart of the page and the submission-in-progress flag are as
    before. *)
Definition rejected_locally (g : Global) (st : Page.PageState) (message : string)
    (o : Page.Outcome) : Prop :=
  Page.errorMessage (Page.state o) = Some (JString message) /\
  Page.requests o = [] /\
  Page.global o = g /\
  Page.cartItems (Page.state o) = Page.cartItems st /\
  Page.isSubmitting (Page.state o) = Page.isSubmitting st.

(** A number as JSON carries it: [null] when it is not finite, and no
    negative zero. *)
Definition wire_number (x : float) : jsval :=
  if Number_isFinite x then JNumber (unsigned_zero x) else JNull.

(** The JSON document of an order: the items as pairs of product
    identifier and quantity, in the order of the cart; one payment with
    the method and the amount as [toFixed(2)] prints it; and a memo when
    the trimmed memo text is not empty. *)
Definition order_document (cart : list CartItem) (method : Page.PaymentMethod)
    (received : float) (memo : string) : jsval :=
  JObject
    ([ ("items",
        JArray (List.map (fun i => JObject [ ("product_id", wire_number (productId i));
                                             ("quantity", wire_number (quantity i)) ])
                         cart));
       ("payments",
        JArray [ JObject [ ("method", JString (Page.method_text method));
                           ("amount", JString (Number_toFixed2 received)) ] ]) ]
     ++ match String_trim memo with
        | EmptyString => []
        | trimmed => [ ("memo", JString trimmed) ]
        end).



(** The options with which [handleSubmit] hands the order to [apiFetch]:
    a POST whose body is the JSON text of the order document. *)
Definition order_options (cart : list CartItem) (method : Page.PaymentMethod)
    (received : float) (memo : string) : Api.ApiFetchOptions :=
  {| Api.opt_auth := None; Api.opt_headers := None;
     Api.opt_body := Some (BodyString (Doc (order_document cart method received memo)));
     Api.opt_method := Some "POST"%string |}.

(** Fixed two-decimal text: digits, a point, two digits. *)
Definition fixed_two_decimals (s : string) : bool :=
  let '(whole, rest) := span_digits s in
  truthy_string whole
  && match rest with
     | String c (String d1 (String d2 EmptyString)) =>
         (code c =? 46)%Z && is_digit d1 && is_digit d2
     | _ => false
     end.

(** The JSON image of a sanitized item: its numbers and texts, the absent
    fields left out. *)
Definition stored_item (i : CartItem) : jsval :=
  JObject
    ([ ("productId", JNumber (productId i)); ("name", JString (name i));
       ("quantity", JNumber (quantity i));
       ("unitPrice", JNumber (unsigned_zero (unitPrice i))) ]
     ++ match sku i with Some s => [ ("sku", JString s) ] | None => [] end
     ++ match taxRate i with
        | Some r => [ ("taxRate", JNumber (unsigned_zero r)) ]
        | None => []
        end).

End Spec.

(* ===================================================================== *)
(** * Sample data                                                         *)
(* ===================================================================== *)

Module Sample.
Import JS Cart Page.

(** A cart of one line: 1 unit at 1.005. *)
Definition one_line_1_005 : list CartItem :=
  [ {| productId := 1; name := "item"; quantity := 1; unitPrice := 1.005;
       sku := None; taxRate := None |} ].

(** The item of the specification's example of sanitization. *)
Definition sample_cart : list CartItem :=
  [ {| productId := 7; name := EmptyString; quantity := 2; unitPrice := 3.5;
       sku := None; taxRate := Some 10%float |} ].

(** An item given away, its price a negative zero. *)
Definition free_sample : list CartItem :=
  [ {| productId := 1; name := "free sample"; quantity := 1; unitPrice := (-0)%float;
       sku := None; taxRate := None |} ].

(** Two lines of 0.004 each. *)
Definition two_lines_0_004 : list CartItem :=
  [ {| productId := 1; name := "a"; quantity := 1; unitPrice := 0.004;
       sku := None; taxRate := None |};
    {| productId := 2; name := "b"; quantity := 1; unitPrice := 0.004;
       sku := None; taxRate := None |} ].

(** Three units at 10.005 with 10% tax. *)
Definition three_at_10_005 : list CartItem :=
  [ {| productId := 1; name := "item"; quantity := 3; unitPrice := 10.005;
       sku := None; taxRate := Some 10%float |} ].

(** A browser window with an empty [localStorage], and one in which a
    token is stored. *)
Definition empty_browser : Global :=
  Some {| localStorage := Some empty; dispatched := [] |}.

Definition signed_in : Global :=
  Some {| localStorage := Some (setItem Auth.AUTH_STORAGE_KEY (Raw "token-123") empty);
          dispatched := [] |}.

(** The page of the specification's example of a checkout: two units at
    500 with 10% tax, paid in cash with 1100.00. *)
Definition ready : PageState :=
  {| cartItems := [ {| productId := 1; name := "item"; quantity := 2; unitPrice := 500;
                       sku := None; taxRate := Some 10%float |} ];
     paymentMethod := cash; receivedAmount := "1100.00"; memo := EmptyString;
     isSubmitting := false; errorMessage := None; orderResult := JNull |}.

(** The same page with [1e22] typed as the received amount. *)
Definition ready_1e22 : PageState := setReceivedAmount "1e22" ready.

(** A server that answers 200 with a page of HTML, one that answers 502
    with it, and one that answers 204 with no body. *)
Definition html_page : Response :=
  {| status := 200; statusText := "OK"; responseText := Raw "<html>Bad Gateway</html>" |}.

Definition html_server (r : Request) : FetchOutcome := Fulfilled html_page.

Definition bad_gateway_server (r : Request) : FetchOutcome :=
  Fulfilled {| status := 502; statusText := "Bad Gateway";
               responseText := Raw "<html>Bad Gateway</html>" |}.

Definition order_server (r : Request) : FetchOutcome :=
  Fulfilled {| status := 200; statusText := "OK";
               responseText := Doc (JObject [ ("order_no", JString "X1");
                                              ("total", JString "1100.00");
                                              ("paid_amount", JString "1100.00");
                                              ("change_amount", JString "0.00") ]) |}.

Definition out_of_stock_server (r : Request) : FetchOutcome :=
  Fulfilled {| status := 422; statusText := "Unprocessable Entity";
               responseText := Doc (JObject [ ("detail", JString "insufficient stock") ]) |}.

Definition no_content : Response :=
  {| status := 204; statusText := "No Content"; responseText := Raw EmptyString |}.

Definition no_content_server (r : Request) : FetchOutcome := Fulfilled no_content.

(** A window without a [localStorage]. *)
Definition no_storage : Global := Some {| localStorage := None; dispatched := [] |}.

(** A network on which no request can be made. *)
Definition offline (r : Request) : FetchOutcome := Rejected "Failed to fetch".

(** A stored record under the alternate field names, and one that is not
    an object. *)
Definition alternate_record : jsval :=
  JObject [ ("product_id", JNumber 7); ("quantity", JNumber 2);
            ("unit_price", JNumber 3.5); ("tax_rate", JNumber 10) ].

Definition alternate_item : CartItem :=
  {| productId := 7; name := EmptyString; quantity := 2; unitPrice := 3.5;
     sku := None; taxRate := Some 10%float |}.

(** The answers of [order_server] and of [out_of_stock_server]. *)
Definition order_answer : jsval :=
  JObject [ ("order_no", JString "X1"); ("total", JString "1100.00");
            ("paid_amount", JString "1100.00"); ("change_amount", JString "0.00") ].

Definition out_of_stock : Response :=
  {| status := 422; statusText := "Unprocessable Entity";
     responseText := Doc (JObject [ ("detail", JString "insufficient stock") ]) |}.

Definition bad_gateway : Response :=
  {| status := 502; statusText := "Bad Gateway";
     responseText := Raw "<html>Bad Gateway</html>" |}.




(** The ideographic space U+3000 and the no-break space U+00A0. *)
Definition ideographic_space : string :=
  String "227" (String "128" (String "128" EmptyString)).

Definition no_break_space : string := String "194" (String "160" EmptyString).

End Sample.

(* ===================================================================== *)
(** * Properties                                                          *)
(* ===================================================================== *)

Import JS.

(** ** Binary64 facts

    The comparisons and classifications of primitive floats, read off their
    specification over [spec_float]. *)

Section Binary64.

Lemma SFcompare_refl x : x <> S754_nan -> SFcompare x x = Some Eq.
Proof.
  destruct x as [[]|[]| |[] m e]; simpl; try congruence; intros _;
    rewrite Z.compare_refl, Pos.compare_cont_refl; reflexivity.
Qed.

Lemma is_nan_spec x : is_nan x = true <-> Prim2SF x = S754_nan.
Proof.
  unfold is_nan. rewrite FloatAxioms.eqb_spec. unfold SFeqb. split.
  - destruct (Prim2SF x) eqn:E; try reflexivity; rewrite SFcompare_refl; simpl; congruence.
  - intros ->. reflexivity.
Qed.

Lemma is_infinity_spec x : is_infinity x = true <-> exists s, Prim2SF x = S754_infinity s.
Proof.
  unfold is_infinity. rewrite FloatAxioms.eqb_spec, abs_spec. unfold SFeqb.
  change (Prim2SF infinity) with (S754_infinity false).
  destruct (Prim2SF x) as [[]|[]| |[] m e]; simpl; split; intros H;
    try discriminate; try (destruct H; discriminate); eauto.
Qed.

Lemma is_zero_spec x : is_zero x = true <-> exists s, Prim2SF x = S754_zero s.
Proof.
  unfold is_zero. rewrite FloatAxioms.eqb_spec. unfold SFeqb.
  change (Prim2SF zero) with (S754_zero false).
  destruct (Prim2SF x) as [[]|[]| |[] m e]; simpl; split; intros H;
    try discriminate; try (destruct H; discriminate); eauto.
Qed.

Lemma isFinite_spec x :
  Number_isFinite x = true <->
  (exists s, Prim2SF x = S754_zero s) \/ (exists s m e, Prim2SF x = S754_finite s m e).
Proof.
  unfold Number_isFinite, is_finite.
  rewrite negb_true_iff, orb_false_iff.
  rewrite <- !not_true_iff_false, is_nan_spec, is_infinity_spec.
  destruct (Prim2SF x) as [s|s| |s m e]; split.
  all: try (intros [H1 H2]); try (intros [[s' H]|[s' [m' [e' H]]]]); try discriminate.
  all: try (exfalso; apply H1; reflexivity); try (exfalso; apply H2; eauto; fail).
  all: try (split; [congruence | intros [? ?]; congruence]).
  all: eauto 6.
Qed.

Lemma isInteger_isFinite x : Number_isInteger x = true -> Number_isFinite x = true.
Proof.
  unfold Number_isInteger. intros H. apply isFinite_spec.
  destruct (Prim2SF x); try discriminate; eauto 6.
Qed.

Lemma ltb_zero_spec x :
  (0 <? x)%float = true <->
  Prim2SF x = S754_infinity false \/ exists m e, Prim2SF x = S754_finite false m e.
Proof.
  rewrite FloatAxioms.ltb_spec. unfold SFltb.
  change (Prim2SF 0) with (S754_zero false).
  destruct (Prim2SF x) as [[]|[]| |[] m e]; simpl; split; intros H;
    try discriminate; try (destruct H as [H|[? [? H]]]; discriminate); eauto.
Qed.

Lemma leb_zero_spec x :
  (x <=? 0)%float = false <->
  Prim2SF x = S754_nan \/ Prim2SF x = S754_infinity false \/
  exists m e, Prim2SF x = S754_finite false m e.
Proof.
  rewrite FloatAxioms.leb_spec. unfold SFleb.
  change (Prim2SF 0) with (S754_zero false).
  destruct (Prim2SF x) as [[]|[]| |[] m e]; simpl; split; intros H;
    try discriminate; try (destruct H as [H|[H|[? [? H]]]]; discriminate); eauto.
Qed.

(** For a finite number, "not at most zero" is "greater than zero". *)
Lemma finite_positive x :
  Number_isFinite x = true -> ((x <=? 0)%float = false <-> (0 <? x)%float = true).
Proof.
  rewrite isFinite_spec, leb_zero_spec, ltb_zero_spec.
  intros [[s H]|[s [m [e H]]]]; rewrite H; split;
    intros; repeat match goal with
                   | H : _ \/ _ |- _ => destruct H
                   | H : ex _ |- _ => destruct H
                   end; try discriminate; eauto.
Qed.

Lemma positive_not_zero x : (0 <? x)%float = true -> is_zero x = false.
Proof.
  rewrite ltb_zero_spec. intros H. apply not_true_iff_false. rewrite is_zero_spec.
  intros [s Hs]. rewrite Hs in H. destruct H as [H|[m [e H]]]; discriminate.
Qed.

Lemma unsigned_zero_finite x :
  Number_isFinite (Spec.unsigned_zero x) = Number_isFinite x.
Proof.
  unfold Spec.unsigned_zero. destruct (is_zero x) eqn:E; [|reflexivity].
  symmetry. apply isFinite_spec. apply is_zero_spec in E. auto.
Qed.

Lemma unsigned_zero_id x : x <> neg_zero -> Spec.unsigned_zero x = x.
Proof.
  intros H. unfold Spec.unsigned_zero. destruct (is_zero x) eqn:E; [|reflexivity].
  apply is_zero_spec in E as [[] E]; apply Prim2SF_inj; rewrite E.
  - exfalso. apply H. apply Prim2SF_inj. rewrite E. reflexivity.
  - reflexivity.
Qed.

(** *** The sign of a difference *)

Lemma digits2_pos_bounds m :
  (2 ^ (Zpos (digits2_pos m) - 1) <= Zpos m < 2 ^ Zpos (digits2_pos m))%Z.
Proof.
  induction m as [m IH|m IH|]; simpl digits2_pos.
  - rewrite Pos2Z.inj_succ.
    replace (Z.succ (Zpos (digits2_pos m)) - 1)%Z with (Z.succ (Zpos (digits2_pos m) - 1))%Z by lia.
    rewrite !Z.pow_succ_r by lia. lia.
  - rewrite Pos2Z.inj_succ.
    replace (Z.succ (Zpos (digits2_pos m)) - 1)%Z with (Z.succ (Zpos (digits2_pos m) - 1))%Z by lia.
    rewrite !Z.pow_succ_r by lia. lia.
  - simpl. lia.
Qed.

Lemma shl_align_fst mx ex ez :
  (ez <= ex)%Z -> Zpos (fst (shl_align mx ex ez)) = (Zpos mx * 2 ^ (ex - ez))%Z.
Proof.
  intros H. unfold shl_align.
  destruct (ez - ex)%Z as [|d|d] eqn:E; try lia.
  - replace (ex - ez)%Z with 0%Z by lia. simpl. lia.
  - simpl fst. change (Pos.iter xO mx d) with (shift_pos d mx).
    rewrite shift_pos_correct. replace (ex - ez)%Z with (Zpos d) by lia.
    rewrite Z.pow_pos_fold. lia.
Qed.

Lemma bounded_digits m e :
  bounded prec emax m e = true ->
  (-1074 <= e)%Z /\ (Zpos (digits2_pos m) <= 53)%Z /\
  ((-1074 < e)%Z -> Zpos (digits2_pos m) = 53%Z).
Proof.
  unfold bounded, canonical_mantissa, fexp, SpecFloat.emin, prec, emax.
  intros H. apply andb_true_iff in H as [H _]. apply Z.eqb_eq in H. lia.
Qed.

(** Rounding keeps the sign it is given. *)
Lemma binary_round_aux_sign s m e l : has_sign s (binary_round_aux prec emax s m e l).
Proof.
  unfold binary_round_aux.
  destruct (shr_fexp prec emax m e l) as [mrs' e'].
  destruct (shr_fexp prec emax _ e' loc_Exact) as [mrs'' e''].
  destruct (shr_m mrs''); simpl; auto.
  destruct (e'' <=? emax - prec)%Z; simpl; auto.
Qed.

Lemma binary_normalize_positive m e :
  SFltb (S754_zero false) (binary_normalize prec emax m e false) = true -> (0 < m)%Z.
Proof.
  destruct m as [|p|p]; simpl; try discriminate; try lia.
  unfold binary_round. destruct (shl_align _ _ _) as [mz ez].
  pose proof (binary_round_aux_sign true (Zpos mz) ez loc_Exact) as H.
  destruct (binary_round_aux _ _ _ _ _ _) as [s'|s'| |s' m' e']; simpl in *; subst;
    discriminate.
Qed.

Lemma pow2_le_mul a k : (0 < a)%Z -> (1 <= k)%Z -> (2 * a <= a * 2 ^ k)%Z.
Proof.
  intros Ha Hk. replace k with (Z.succ (k - 1)) by lia.
  rewrite Z.pow_succ_r by lia.
  assert (1 <= 2 ^ (k - 1))%Z by (apply (Z.pow_le_mono_r 2 0); lia). nia.
Qed.

(** Of two numbers in canonical form, the one with the larger exponent has
    the larger magnitude. *)
Lemma larger_exponent mx ex my ey :
  bounded prec emax mx ex = true -> bounded prec emax my ey = true ->
  (ex < ey)%Z -> (Zpos mx < Zpos my * 2 ^ (ey - ex))%Z.
Proof.
  intros Hx Hy Hlt.
  destruct (bounded_digits _ _ Hx) as (Hemin & Hdx & _).
  destruct (bounded_digits _ _ Hy) as (_ & _ & Hdy).
  specialize (Hdy ltac:(lia)).
  pose proof (digits2_pos_bounds mx) as [_ Bx].
  pose proof (digits2_pos_bounds my) as [By _].
  rewrite Hdy in By.
  assert (Zpos mx < 2 ^ 53)%Z.
  { eapply Z.lt_le_trans; [exact Bx|]. apply Z.pow_le_mono_r; lia. }
  pose proof (pow2_le_mul (Zpos my) (ey - ex) ltac:(lia) ltac:(lia)).
  change (2 ^ (53 - 1))%Z with 4503599627370496%Z in By.
  change (2 ^ 53)%Z with 9007199254740992%Z in *. lia.
Qed.

Lemma SFsub_positive x y :
  valid_binary x = true -> valid_binary y = true ->
  SFltb (S754_zero false) (SFsub prec emax x y) = true -> SFleb y x = true.
Proof.
  intros Vx Vy.
  destruct x as [sx|sx| |sx mx ex], y as [sy|sy| |sy my ey];
    try (lazymatch goal with
         | |- context [SFsub _ _ (S754_finite _ _ _) (S754_finite _ _ _)] => fail
         | _ => idtac
         end;
         intros H; repeat match goal with s : bool |- _ => destruct s end;
         simpl in H |- *; (discriminate || reflexivity)).
  simpl in Vx, Vy. unfold SFsub. intros H. apply binary_normalize_positive in H.
  rewrite !shl_align_fst in H by lia.
  unfold SFleb, SFcompare.
  destruct sx, sy; simpl cond_Zopp in H; try reflexivity.
  - (* both negative *)
    destruct (Z.compare_spec ey ex) as [E|E|E]; try reflexivity.
    + subst. rewrite Z.min_id, Z.sub_diag in H. simpl in H.
      rewrite Pos.compare_cont_spec. simpl.
      destruct (Pos.compare_spec my mx); simpl; try reflexivity; lia.
    + exfalso. pose proof (larger_exponent _ _ _ _ Vy Vx E).
      rewrite Z.min_r in H by lia. rewrite Z.sub_diag in H. simpl in H. lia.
  - (* x negative, y positive *)
    exfalso.
    assert (0 < 2 ^ (ex - Z.min ex ey))%Z by (apply Z.pow_pos_nonneg; lia).
    assert (0 < 2 ^ (ey - Z.min ex ey))%Z by (apply Z.pow_pos_nonneg; lia).
    nia.
  - (* both positive *)
    destruct (Z.compare_spec ey ex) as [E|E|E]; try reflexivity.
    + subst. rewrite Z.min_id, Z.sub_diag in H. simpl in H.
      rewrite Pos.compare_cont_spec. simpl.
      destruct (Pos.compare_spec my mx); simpl; try reflexivity; lia.
    + exfalso. pose proof (larger_exponent _ _ _ _ Vx Vy E).
      rewrite Z.min_l in H by lia. rewrite Z.sub_diag in H. simpl in H. lia.
Qed.

(** A difference is positive only if the first number is the larger. *)
Lemma sub_positive (p t : float) :
  (0 <? p - t)%float = true -> (t <=? p)%float = true.
Proof.
  rewrite FloatAxioms.ltb_spec, FloatAxioms.leb_spec, sub_spec.
  change (Prim2SF 0) with (S754_zero false).
  apply SFsub_positive; apply Prim2SF_valid.
Qed.

End Binary64.

(** ** The cart store *)

Import Cart Sample.

(** C2, as amended.  For every list of cart items, [calculateCartTotals]
    is the left fold from the all-zero totals that, for each item in
    order, rounds the line subtotal [unitPrice * quantity] and the line tax
    [lineSubtotal * (taxRate-or-0 / 100)] to two decimals and rounds each
    of the running subtotal, tax and total after adding the line, where
    rounding to two decimals adds the machine-epsilon nudge to the value,
    multiplies by 100, rounds to the nearest integer and divides by 100. *)
Theorem calculateCartTotals_by_steps (items : list CartItem) :
  calculateCartTotals items
  = Spec.totals_by_steps Spec.round2_nudge_before_scaling items.
Proof.
  unfold calculateCartTotals, Spec.totals_by_steps.
  change {| subtotal := 0; tax := 0; total := 0 |} with Spec.no_totals.
  generalize Spec.no_totals as running.
  induction items as [|item rest IH]; intros running; simpl.
  - reflexivity.
  - rewrite IH. reflexivity.
Qed.

(** C2, as stated, fails: with the nudge added after the multiplication by
    100, as the claim words the rounding, the subtotal of one unit at 1.005
    would be 1, and [calculateCartTotals] makes it 1.01. *)
Lemma calculateCartTotals_not_nudge_after_scaling :
  subtotal (calculateCartTotals one_line_1_005) = 1.01%float /\
  subtotal (Spec.totals_by_steps Spec.round2_nudge_after_scaling one_line_1_005) = 1%float /\
  calculateCartTotals one_line_1_005
  <> Spec.totals_by_steps Spec.round2_nudge_after_scaling one_line_1_005.
Proof.
  split_and!.
  - vm_compute. reflexivity.
  - vm_compute. reflexivity.
  - intros H. apply (f_equal (fun t => (subtotal t <=? 1)%float)) in H.
    vm_compute in H. discriminate.
Qed.

Lemma nullish_first_present_2 v a b :
  nullish (get v a) (get v b) = Spec.first_present v [a; b].
Proof. simpl. destruct (get v a); reflexivity. Qed.

Lemma nullish_first_present_3 v a b c :
  nullish (nullish (get v a) (get v b)) (get v c) = Spec.first_present v [a; b; c].
Proof. simpl. destruct (get v a); try reflexivity; destruct (get v b); reflexivity. Qed.

Lemma taxRate_finite_number_only v :
  (if match v with JUndefined => false | _ => true end && Number_isFinite (Number v)
   then Some (Number v) else None) = Spec.finite_number_only v.
Proof. destruct v; reflexivity. Qed.

Lemma is_object_dec v :
  Spec.is_object v <->
  negb (String.eqb (typeof v) "object") || match v with JNull => true | _ => false end = false.
Proof.
  unfold Spec.is_object.
  destruct v; simpl;
    (split;
     [ intros [H1 H2]; first [reflexivity | discriminate H1 | congruence]
     | intros H; first [discriminate H | split; [reflexivity|discriminate]] ]).
Qed.

(** What [sanitizeCartItem] does with a non-null object: the three numeric
    tests, then the item. *)
Lemma sanitizeCartItem_object (input : jsval) :
  Spec.is_object input ->
  let pid := Number (Spec.first_present input ["productId"; "product_id"]) in
  let qty := Number (get input "quantity") in
  let price := Number (Spec.first_present input ["unitPrice"; "unit_price"; "price"]) in
  sanitizeCartItem input =
  if Number_isInteger pid && (0 <? pid)%float
     && (Number_isFinite qty && (0 <? qty)%float)
     && Number_isFinite price
  then Some {| productId := pid;
               name := Spec.text_or_empty (Spec.first_present input ["name"; "productName"]);
               quantity := qty;
               unitPrice := price;
               sku := Spec.text_only (Spec.first_present input ["sku"; "productSku"]);
               taxRate := Spec.finite_number_only
                            (Spec.first_present input ["taxRate"; "tax_rate"]) |}
  else None.
Proof.
  intros Hobj pid qty price. unfold sanitizeCartItem.
  apply is_object_dec in Hobj. rewrite Hobj.
  rewrite taxRate_finite_number_only, nullish_first_present_3, !nullish_first_present_2.
  fold pid qty price.
  destruct (Number_isInteger pid) eqn:Hint; simpl; [|reflexivity].
  pose proof (finite_positive pid (isInteger_isFinite _ Hint)) as Hpid.
  destruct (pid <=? 0)%float eqn:Hle, (0 <? pid)%float eqn:Hlt; simpl;
    try reflexivity; try (destruct Hpid as [H1 H2]; (specialize (H1 eq_refl) || specialize (H2 eq_refl)); discriminate).
  destruct (Number_isFinite qty) eqn:Hfin; simpl; [|reflexivity].
  pose proof (finite_positive qty Hfin) as Hqty.
  destruct (qty <=? 0)%float eqn:Hle', (0 <? qty)%float eqn:Hlt'; simpl;
    try reflexivity; try (destruct Hqty as [H1 H2]; (specialize (H1 eq_refl) || specialize (H2 eq_refl)); discriminate).
  destruct (Number_isFinite price); reflexivity.
Qed.


Lemma json_image_item (i : CartItem) :
  Spec.sanitized i = true -> json_image (item_value i) = Some (Spec.stored_item i).
Proof.
  destruct i as [pid nm qty price sk tr]. unfold Spec.sanitized, Spec.stored_item, item_value.
  cbn [productId name quantity unitPrice sku taxRate].
  rewrite !andb_true_iff. intros [[[[[Hint Hpid] Hqf] Hqty] Hpf] Htr].
  pose proof (isInteger_isFinite _ Hint) as Hpidf.
  pose proof (positive_not_zero _ Hpid) as Hpz.
  pose proof (positive_not_zero _ Hqty) as Hqz.
  destruct sk as [s|], tr as [r|];
    cbn -[Number_isFinite is_zero]; rewrite ?Hpidf, ?Hpz, ?Hqf, ?Hqz, ?Hpf, ?Htr;
    reflexivity.
Qed.

Lemma sanitize_stored_item (i : CartItem) :
  Spec.sanitized i = true -> sanitizeCartItem (Spec.stored_item i) = Some (Spec.read_back i).
Proof.
  intros H. rewrite sanitizeCartItem_object by (split; [reflexivity|discriminate]).
  destruct i as [pid nm qty price sk tr].
  unfold Spec.sanitized, Spec.read_back, Spec.stored_item in *.
  cbn [productId name quantity unitPrice sku taxRate] in *.
  rewrite !andb_true_iff in H. destruct H as [[[[[Hint Hpid] Hqf] Hqty] Hpf] Htr].
  destruct sk as [s|], tr as [r|];
    cbn -[Number_isFinite is_zero Number_isInteger Spec.unsigned_zero];
    unfold Spec.finite_number_only;
    cbn -[Number_isFinite is_zero Number_isInteger Spec.unsigned_zero];
    rewrite ?unsigned_zero_finite, ?Hint, ?Hpid, ?Hqf, ?Hqty, ?Hpf, ?Htr; reflexivity.
Qed.

Lemma sanitize_stored_items (items : list CartItem) :
  Forall (fun i => Spec.sanitized i = true) items ->
  omap sanitizeCartItem (List.map (fun e => default JNull (json_image e)) (List.map item_value items))
  = List.map Spec.read_back items.
Proof.
  induction 1 as [|i items Hi _ IH]; [reflexivity|].
  cbn [List.map]. rewrite json_image_item by exact Hi.
  change (default JNull (Some (Spec.stored_item i))) with (Spec.stored_item i).
  cbn [omap list_omap]. rewrite sanitize_stored_item by exact Hi.
  f_equal. exact IH.
Qed.

Lemma read_back_id (i : CartItem) : Spec.no_negative_zero i -> Spec.read_back i = i.
Proof.
  destruct i as [pid nm qty price sk tr]. unfold Spec.no_negative_zero, Spec.read_back.
  cbn [productId name quantity unitPrice sku taxRate]. intros [Hp Ht].
  rewrite unsigned_zero_id by exact Hp. f_equal.
  destruct tr as [r|]; [|reflexivity]. cbn. rewrite unsigned_zero_id; congruence.
Qed.

(** C10, as amended.  In a browser, for every list of cart items that
    satisfy the sanitization invariant, [readCartItems] right after
    [writeCartItems] returns a list of the same items in the same order,
    equal field by field to the written ones except that a [unitPrice] or
    [taxRate] of negative zero comes back as zero; when no item holds a
    negative zero the list read is the list written. *)
Theorem read_after_write (g : Global) (items : list CartItem) :
  isBrowser g = true ->
  Forall (fun i => Spec.sanitized i = true) items ->
  readCartItems (writeCartItems items g) = List.map Spec.read_back items /\
  (Forall Spec.no_negative_zero items -> readCartItems (writeCartItems items g) = items).
Proof.
  intros Hb Hs.
  assert (Hread : readCartItems (writeCartItems items g) = List.map Spec.read_back items).
  { destruct g as [[[st|] ev]|]; try discriminate Hb.
    unfold writeCartItems, emitCartChange, readCartItems. cbn -[setItem items_value stringified].
    unfold getItem, setItem. rewrite lookup_insert_eq.
    unfold stringified, JSON_stringify, items_value.
    cbn [json_image fmap option_fmap option_map default from_option].
    cbn [truthy_text chars JSON_print truthy_string negb JSON_parse].
    apply sanitize_stored_items, Hs. }
  split; [exact Hread|].
  intros Hz. rewrite Hread. clear Hread Hs.
  induction Hz as [|i items Hi _ IH]; [reflexivity|].
  cbn [List.map]. rewrite read_back_id by exact Hi. f_equal. exact IH.
Qed.

(** The round trip of the sample cart. *)
Lemma read_after_write_witness :
  readCartItems (writeCartItems sample_cart empty_browser)
  = List.map Spec.read_back sample_cart /\
  (Forall Spec.no_negative_zero sample_cart ->
   readCartItems (writeCartItems sample_cart empty_browser) = sample_cart).
Proof.
  apply (read_after_write empty_browser sample_cart); [reflexivity|].
  repeat constructor.
Defined.

(** C10, as stated, fails: an item whose [unitPrice] is negative zero
    satisfies the invariant, and is read back with a [unitPrice] of zero. *)
Lemma read_after_write_negative_zero :
  isBrowser empty_browser = true /\
  Forall (fun i => Spec.sanitized i = true) free_sample /\
  unitPrice <$> readCartItems (writeCartItems free_sample empty_browser) = [zero] /\
  readCartItems (writeCartItems free_sample empty_browser) <> free_sample.
Proof.
  split_and!.
  - reflexivity.
  - repeat constructor.
  - vm_compute. reflexivity.
  - intros H.
    apply (f_equal (fun l => match l with
                             | [i] => (1 / unitPrice i <? 0)%float
                             | _ => false
                             end)) in H.
    vm_compute in H. discriminate.
Qed.

(** ** Fixed two-decimal text *)

Lemma string_of_uint_digits (d : Decimal.uint) : all_digits (NilEmpty.string_of_uint d) = true.
Proof. induction d; simpl; auto. Qed.

Lemma string_of_Z_digits (n : Z) :
  all_digits (string_of_Z n) = true /\ truthy_string (string_of_Z n) = true.
Proof.
  unfold string_of_Z, NilZero.string_of_uint.
  destruct (N.to_uint (Z.to_N n)) eqn:E; try (split; [reflexivity|reflexivity]);
    rewrite <- E; (split; [apply string_of_uint_digits|]); rewrite E; reflexivity.
Qed.

Lemma digit_char_digit (d : Z) : (0 <= d <= 9)%Z -> is_digit (digit_char d) = true.
Proof.
  intros H.
  assert (d = 0 \/ d = 1 \/ d = 2 \/ d = 3 \/ d = 4 \/ d = 5 \/ d = 6 \/ d = 7 \/ d = 8 \/ d = 9)%Z
    as Hd by lia.
  repeat (destruct Hd as [->|Hd]; [reflexivity|]). subst. reflexivity.
Qed.

Lemma span_digits_whole (ds rest : string) (c : ascii) :
  all_digits ds = true -> is_digit c = false ->
  span_digits (ds +:+ String c rest) = (ds, String c rest).
Proof.
  intros Hds Hc. induction ds as [|a ds IH]; simpl in *.
  - rewrite Hc. reflexivity.
  - apply andb_true_iff in Hds as [Ha Hds]. rewrite Ha, (IH Hds). reflexivity.
Qed.

Lemma fixed_two_decimals_intro (q r : Z) :
  (0 <= r < 100)%Z ->
  Spec.fixed_two_decimals (string_of_Z q +:+ "." +:+ two_digits r) = true.
Proof.
  intros Hr. unfold Spec.fixed_two_decimals, two_digits.
  destruct (string_of_Z_digits q) as [Hd Ht].
  change ("." +:+ ?s)%string with (String "." s).
  rewrite span_digits_whole by (exact Hd || reflexivity).
  rewrite Ht, !digit_char_digit; [reflexivity| |].
  - pose proof (Z.mod_pos_bound r 10). lia.
  - split; [apply Z.div_pos; lia|].
    assert (r / 10 < 10)%Z by (apply Z.div_lt_upper_bound; lia). lia.
Qed.

Lemma SFltb_not_leb x y : SFltb x y = true -> SFleb y x = false.
Proof.
  unfold SFltb, SFleb.
  destruct x as [sx|sx| |sx mx ex], y as [sy|sy| |sy my ey]; simpl;
    repeat match goal with s : bool |- _ => destruct s end; simpl;
    try discriminate; try reflexivity.
  - rewrite (Z.compare_antisym ex ey).
    destruct (ex ?= ey)%Z eqn:E; simpl; try discriminate; try reflexivity.
    change (Pos.compare_cont Eq my mx) with (Pos.compare_cont (CompOpp Eq) my mx).
    rewrite <- (Pos.compare_cont_antisym mx my Eq).
    destruct (Pos.compare_cont Eq mx my); simpl; try discriminate; reflexivity.
  - rewrite (Z.compare_antisym ex ey).
    destruct (ex ?= ey)%Z eqn:E; simpl; try discriminate; try reflexivity.
    change (Pos.compare_cont Eq my mx) with (Pos.compare_cont (CompOpp Eq) my mx).
    rewrite <- (Pos.compare_cont_antisym mx my Eq).
    destruct (Pos.compare_cont Eq mx my); simpl; try discriminate; reflexivity.
Qed.

(** Below [1e21], a positive amount prints as fixed two-decimal text. *)
Lemma toFixed2_fixed (x : float) :
  (x <=? 0)%float = false -> (x <? 1e21)%float = true ->
  Spec.fixed_two_decimals (Number_toFixed2 x) = true.
Proof.
  intros Hpos Hlt.
  assert (Hle : (1e21 <=? x)%float = false).
  { rewrite FloatAxioms.leb_spec. apply SFltb_not_leb. rewrite <- FloatAxioms.ltb_spec. exact Hlt. }
  apply leb_zero_spec in Hpos. rewrite FloatAxioms.ltb_spec in Hlt.
  assert (Habs : forall m e, Prim2SF x = S754_finite false m e -> abs x = x).
  { intros m e E. apply Prim2SF_inj. rewrite abs_spec, E. reflexivity. }
  unfold Number_toFixed2.
  destruct Hpos as [E|[E|(m & e & E)]]; rewrite E in *; try discriminate Hlt.
  rewrite (Habs m e eq_refl), Hle.
  destruct (0 <=? e)%Z; cbn [append]; apply fixed_two_decimals_intro;
    apply Z.mod_pos_bound; lia.
Qed.

(** ** The checkout page: derived values *)

Import Page.

(** C3.  For every input, [parseMoney] returns what the parser without the
    pattern test returns: trim; nothing when empty; strip the commas;
    coerce to a number; when finite, that number rounded to two decimals,
    otherwise nothing.  The two branches of the pattern test agree. *)
Theorem parseMoney_pattern_inert (input : string) :
  parseMoney input = Spec.parseMoney_reference input.
Proof.
  unfold parseMoney, Spec.parseMoney_reference.
  destruct (String_trim input) as [|c rest]; cbn [truthy_string negb]; [reflexivity|].
  destruct (negb (money_pattern _) || _ || _ || _);
    destruct (Number_isFinite _); reflexivity.
Qed.

Lemma not_positive_zero : (0 <? 0)%float = false.
Proof. reflexivity. Qed.

(** C7.  For every total and received-amount text: when the amount does
    not parse, change and shortage are both 0; otherwise the change is the
    parsed amount minus the total, rounded to two decimals, when that
    difference is positive, and 0 when it is not, and the shortage is 0
    when the parsed amount is at least the total and the total minus the
    parsed amount, rounded to two decimals, when it is not; the two are
    never both positive.  Rounding to two decimals is that of the
    repository's rounding helper, written out in [Spec]: add the nudge,
    multiply by 100, round to the nearest integer, divide by 100. *)
Theorem change_and_shortage (total : float) (receivedAmount : string) :
  match parseMoney receivedAmount with
  | None =>
      computedChange (parseMoney receivedAmount) total = 0%float /\
      shortage (parseMoney receivedAmount) total = 0%float
  | Some parsed =>
      computedChange (parseMoney receivedAmount) total
      = (if (0 <? parsed - total)%float
         then Spec.round2_nudge_before_scaling (parsed - total)
         else 0)%float /\
      shortage (parseMoney receivedAmount) total
      = (if (total <=? parsed)%float
         then 0
         else Spec.round2_nudge_before_scaling (total - parsed))%float
  end /\
  (0 <? computedChange (parseMoney receivedAmount) total)%float
  && (0 <? shortage (parseMoney receivedAmount) total)%float = false.
Proof.
  destruct (parseMoney receivedAmount) as [parsed|]; cbn [computedChange shortage].
  - split; [split; reflexivity|].
    destruct (0 <? parsed - total)%float eqn:Hdiff.
    + rewrite (sub_positive _ _ Hdiff), not_positive_zero. apply andb_false_r.
    + rewrite not_positive_zero. reflexivity.
  - split; [split; reflexivity|]. reflexivity.
Qed.

(** ** The HTTP request wrapper *)

Import Api.

Section ApiFacts.

Variable env : option string.
Variable fetch : Request -> FetchOutcome.

(** How [apiFetch] completes once it has handed a request to [fetch], and
    when it hands none. *)
Lemma apiFetch_sent (g : Global) (path : string) (options : ApiFetchOptions)
    (request : Request) :
  fst (apiFetch env fetch g path options) = Some request ->
  snd (apiFetch env fetch g path options)
  = match fetch request with
    | Rejected reason => Throw (ThrownTypeError reason)
    | Fulfilled response =>
        if negb (ok response) then
          Throw (ThrownApiError
                   (new_ApiError (status response)
                      (if truthy_text (responseText response)
                       then default (JString (chars (responseText response)))
                                    (JSON_parse (responseText response))
                       else JNull)
                      (Some (statusText response))))
        else if negb (truthy_text (responseText response)) then Return JUndefined
        else match JSON_parse (responseText response) with
             | Some v => Return v
             | None =>
                 Throw (ThrownApiError
                          (new_ApiError (status response)
                             (JString (chars (responseText response)))
                             (Some "Failed to parse response JSON"%string)))
             end
    end.
Proof.
  unfold apiFetch. cbv zeta.
  match goal with
  | |- context [match ?t with Some _ => _ | None => (None, _) end] => destruct t as [h|]
  end; cbn [fst snd]; [|discriminate].
  intros [= <-].
  destruct (fetch _) as [response|reason]; [|reflexivity].
  destruct (negb (ok response)); [|reflexivity].
  destruct (truthy_text (responseText response)); [|reflexivity].
  destruct (JSON_parse (responseText response)); reflexivity.
Qed.

Lemma apiFetch_not_sent (g : Global) (path : string) (options : ApiFetchOptions) :
  fst (apiFetch env fetch g path options) = None ->
  snd (apiFetch env fetch g path options) = Throw (ThrownTypeError INVALID_HEADER).
Proof.
  unfold apiFetch. cbv zeta.
  match goal with
  | |- context [match ?t with Some _ => _ | None => (None, _) end] => destruct t as [h|]
  end; cbn [fst snd]; [discriminate|reflexivity].
Qed.

(** The answer to the request of [apiFetch], if it made one. *)
Lemma apiFetch_answer (g : Global) (path : string) (options : ApiFetchOptions)
    (answer : FetchOutcome) :
  fetch <$> fst (apiFetch env fetch g path options) = Some answer ->
  exists request,
    fst (apiFetch env fetch g path options) = Some request /\ fetch request = answer.
Proof.
  destruct (fst (apiFetch env fetch g path options)) as [request|]; [|discriminate].
  intros [= <-]. eauto.
Qed.

(** C9.  When [apiFetch] receives a success status and an empty response
    body, it resolves to [undefined]: it does not throw, and it does not
    return an object. *)
Theorem apiFetch_empty_body (g : Global) (path : string) (options : ApiFetchOptions)
    (response : Response) :
  fetch <$> fst (apiFetch env fetch g path options) = Some (Fulfilled response) ->
  ok response = true ->
  chars (responseText response) = EmptyString ->
  snd (apiFetch env fetch g path options) = Return JUndefined.
Proof.
  intros Hfetch Hok Hempty.
  destruct (apiFetch_answer _ _ _ _ Hfetch) as (request & Hsent & Hanswer).
  rewrite (apiFetch_sent _ _ _ _ Hsent), Hanswer, Hok.
  unfold truthy_text. rewrite Hempty. reflexivity.
Qed.

(** The error thrown on a success status with a body that is not JSON,
    and the one thrown on a status outside the success range. *)
Lemma apiFetch_parse_failure (g : Global) (path : string) (options : ApiFetchOptions)
    (response : Response) :
  fetch <$> fst (apiFetch env fetch g path options) = Some (Fulfilled response) ->
  ok response = true ->
  truthy_text (responseText response) = true ->
  JSON_parse (responseText response) = None ->
  snd (apiFetch env fetch g path options)
  = Throw (ThrownApiError
             {| err_status := status response;
                err_body := JString (chars (responseText response));
                err_message := "Failed to parse response JSON" |}).
Proof.
  intros Hfetch Hok Htext Hparse.
  destruct (apiFetch_answer _ _ _ _ Hfetch) as (request & Hsent & Hanswer).
  rewrite (apiFetch_sent _ _ _ _ Hsent), Hanswer, Hok, Htext, Hparse. reflexivity.
Qed.

Lemma apiFetch_request_failure (g : Global) (path : string) (options : ApiFetchOptions)
    (response : Response) :
  fetch <$> fst (apiFetch env fetch g path options) = Some (Fulfilled response) ->
  ok response = false ->
  exists e,
    snd (apiFetch env fetch g path options) = Throw e /\
    instanceof_ApiError e = true.
Proof.
  intros Hfetch Hok.
  destruct (apiFetch_answer _ _ _ _ Hfetch) as (request & Hsent & Hanswer).
  rewrite (apiFetch_sent _ _ _ _ Hsent), Hanswer, Hok. eexists. split; reflexivity.
Qed.

Lemma lower_authorization : lower_case "Authorization" = "authorization"%string.
Proof. reflexivity. Qed.










End ApiFacts.

(** ** The checkout page: submission *)

Section PageFacts.

Variable env : option string.
Variable fetch : Request -> FetchOutcome.

Lemma no_items_length (items : list CartItem) :
  Nat.eqb (List.length items) 0 = false <-> items <> [].
Proof. destruct items; simpl; split; congruence. Qed.

(** C6.  [handleSubmit] makes its local validations in this order: the
    cart is empty; no auth token is stored; the received amount does not
    parse; the parsed amount is at most 0.  The first one that fails shows
    its own message, and the handler returns: no request is made, and the
    cart, the stored token and the submission-in-progress flag are as they
    were. *)
Theorem local_validation_order (g : Global) (st : PageState) :
  let outcome := handleSubmit env fetch g st in
  (cartItems st = [] -> Spec.rejected_locally g st MSG_EMPTY_CART outcome) /\
  (cartItems st <> [] -> Spec.holds_token g = false ->
   Spec.rejected_locally g st MSG_NO_TOKEN outcome) /\
  (cartItems st <> [] -> Spec.holds_token g = true ->
   parseMoney (receivedAmount st) = None ->
   Spec.rejected_locally g st MSG_NO_AMOUNT outcome) /\
  (forall parsed,
     cartItems st <> [] -> Spec.holds_token g = true ->
     parseMoney (receivedAmount st) = Some parsed -> (parsed <=? 0)%float = true ->
     Spec.rejected_locally g st MSG_NOT_POSITIVE outcome).
Proof.
  intros outcome. subst outcome. unfold handleSubmit, Spec.holds_token, parsedReceivedAmount.
  split_and!.
  - intros ->. cbn. repeat split.
  - intros Hcart Htoken. apply no_items_length in Hcart. rewrite Hcart, Htoken.
    cbn. repeat split.
  - intros Hcart Htoken Hparse. apply no_items_length in Hcart.
    rewrite Hcart, Htoken, Hparse. cbn. repeat split.
  - intros parsed Hcart Htoken Hparse Hpos. apply no_items_length in Hcart.
    rewrite Hcart, Htoken, Hparse, Hpos. cbn. repeat split.
Qed.

Lemma order_items_image (cart : list CartItem) :
  List.map (fun e => default JNull (json_image e))
    (List.map (fun i => JObject [ ("product_id", JNumber (product_id i));
                                  ("quantity", JNumber (item_quantity i)) ])
       (List.map (fun item => {| product_id := productId item;
                                 item_quantity := quantity item |}) cart))
  = List.map (fun i => JObject [ ("product_id", Spec.wire_number (productId i));
                                 ("quantity", Spec.wire_number (quantity i)) ]) cart.
Proof.
  induction cart as [|item rest IH]; [reflexivity|].
  cbn [List.map]. rewrite IH. reflexivity.
Qed.

(** The text that [JSON.stringify(payload)] makes of the order. *)
Lemma order_payload_text (st : PageState) (parsed : float) :
  let payload :=
    {| items := List.map (fun item => {| product_id := productId item;
                                         item_quantity := quantity item |})
                         (cartItems st);
       payments := [ {| payment_method := paymentMethod st;
                        amount := Number_toFixed2 parsed |} ];
       order_memo := None |} in
  JSON_stringify
    (payload_value
       (if truthy_string (String_trim (memo st))
        then {| items := items payload; payments := payments payload;
                order_memo := Some (String_trim (memo st)) |}
        else payload))
  = Some (Doc (Spec.order_document (cartItems st) (paymentMethod st) parsed (memo st))).
Proof.
  intros payload. subst payload. unfold Spec.order_document, JSON_stringify.
  destruct (String_trim (memo st)) as [|c rest] eqn:Htrim;
    cbn [truthy_string]; unfold payload_value;
    cbn [items payments order_memo payment_method amount app List.map];
    cbn [json_image fmap option_fmap option_map default from_option];
    rewrite order_items_image; reflexivity.
Qed.

(** What [apiFetch] does not touch: the address, the method and the body
    of the request. *)
Lemma apiFetch_request (g : Global) (path : string) (options : ApiFetchOptions)
    (request : Request) :
  fst (apiFetch env fetch g path options) = Some request ->
  url request
  = API_BASE_URL env +:+ (if String_startsWith "/" path then path else "/" +:+ path) /\
  method request = opt_method options /\
  req_body request = opt_body options.
Proof.
  unfold apiFetch. cbv zeta.
  match goal with
  | |- context [match ?t with Some _ => _ | None => (None, _) end] => destruct t as [h|]
  end; cbn [fst]; [|discriminate].
  intros [= <-]. repeat split.
Qed.

(** Past the local validations, [handleSubmit] hands the order to
    [apiFetch]: a POST to [/orders] whose body is the order document.  It
    makes the request that [apiFetch] makes, and ends with the value that
    [apiFetch] returns as the order result, or with a message for what
    [apiFetch] throws. *)
Lemma submitted_request (g : Global) (st : PageState) (parsed : float) :
  cartItems st <> [] ->
  Spec.holds_token g = true ->
  parseMoney (receivedAmount st) = Some parsed ->
  (parsed <=? 0)%float = false ->
  let order :=
    apiFetch env fetch g "/orders"
      (Spec.order_options (cartItems st) (paymentMethod st) parsed (memo st)) in
  requests (handleSubmit env fetch g st) = option_list (fst order) /\
  match snd order with
  | Return response =>
      orderResult (state (handleSubmit env fetch g st)) = response /\
      errorMessage (state (handleSubmit env fetch g st)) = None
  | Throw error =>
      orderResult (state (handleSubmit env fetch g st)) = JNull /\
      errorMessage (state (handleSubmit env fetch g st))
      = Some match error with
             | ThrownApiError e =>
                 nullish match err_body e with
                         | JString s => JString s
                         | b => get b "detail"
                         end
                         (JString MSG_CHECKOUT_FAILED)
             | ThrownTypeError _ => JString MSG_UNEXPECTED
             end
  end.
Proof.
  intros Hcart Htoken Hparse Hpos order. subst order. apply no_items_length in Hcart.
  unfold handleSubmit, Spec.holds_token, parsedReceivedAmount in *.
  rewrite Hcart, Htoken, Hparse, Hpos. cbn [negb].
  rewrite order_payload_text. cbn [fmap option_fmap option_map].
  fold (Spec.order_options (cartItems st) (paymentMethod st) parsed (memo st)).
  destruct (apiFetch _ _ _ _ _) as [request [response|error]]; cbn [fst snd];
    repeat split.
Qed.

(** What the page shows when the answer to the order is a success status
    with a body that is not JSON: the body. *)
Lemma parse_failure_message (g : Global) (st : PageState) (parsed : float)
    (response : Response) :
  cartItems st <> [] ->
  Spec.holds_token g = true ->
  parseMoney (receivedAmount st) = Some parsed ->
  (parsed <=? 0)%float = false ->
  fetch <$> requests (handleSubmit env fetch g st) = [Fulfilled response] ->
  ok response = true ->
  truthy_text (responseText response) = true ->
  JSON_parse (responseText response) = None ->
  errorMessage (state (handleSubmit env fetch g st))
  = Some (JString (chars (responseText response))).
Proof.
  intros Hcart Htoken Hparse Hpos Hfetch Hok Htext Hjson.
  destruct (submitted_request g st parsed Hcart Htoken Hparse Hpos) as [Hreq Hend].
  rewrite Hreq in Hfetch.
  destruct (fst (apiFetch _ _ _ _ _)) as [request|] eqn:Hsent; [|discriminate Hfetch].
  injection Hfetch as Hfetch.
  rewrite (apiFetch_sent _ _ _ _ _ _ Hsent), Hfetch, Hok, Htext, Hjson in Hend.
  cbn [negb] in Hend. apply Hend.
Qed.

(** C1, as amended.  When the response has a success status and a body
    that is not empty and not JSON, [apiFetch] throws an [ApiError], the
    error type it also throws on a status outside the success range; the
    error carries the status, the body text and the message "Failed to
    parse response JSON".  When it reaches the submission handler of the
    checkout page, the page shows the body text. *)
Theorem parse_failure_is_ApiError (g : Global) (response : Response) :
  ok response = true ->
  truthy_text (responseText response) = true ->
  JSON_parse (responseText response) = None ->
  (forall path options,
     fetch <$> fst (apiFetch env fetch g path options) = Some (Fulfilled response) ->
     exists e,
       snd (apiFetch env fetch g path options) = Throw e /\
       instanceof_ApiError e = true /\
       e = ThrownApiError
             {| err_status := status response;
                err_body := JString (chars (responseText response));
                err_message := "Failed to parse response JSON" |}) /\
  (forall path options response',
     fetch <$> fst (apiFetch env fetch g path options) = Some (Fulfilled response') ->
     ok response' = false ->
     exists e,
       snd (apiFetch env fetch g path options) = Throw e /\
       instanceof_ApiError e = true) /\
  (forall st parsed,
     cartItems st <> [] ->
     Spec.holds_token g = true ->
     parseMoney (receivedAmount st) = Some parsed ->
     (parsed <=? 0)%float = false ->
     fetch <$> requests (handleSubmit env fetch g st) = [Fulfilled response] ->
     errorMessage (state (handleSubmit env fetch g st))
     = Some (JString (chars (responseText response)))).
Proof.
  intros Hok Htext Hjson. split_and!.
  - intros path options Hfetch. eexists. split; [|split; [|reflexivity]].
    + apply apiFetch_parse_failure; assumption.
    + reflexivity.
  - intros path options response' Hfetch Hbad.
    apply (apiFetch_request_failure env fetch g path options response' Hfetch Hbad).
  - intros st parsed Hcart Htoken Hparse Hpos Hfetch.
    apply (parse_failure_message g st parsed response); assumption.
Qed.

End PageFacts.

(** ** Instances *)

(** A 204 answer with no body. *)
Lemma apiFetch_empty_body_witness :
  snd (apiFetch None no_content_server signed_in "/orders" no_options) = Return JUndefined.
Proof.
  apply (apiFetch_empty_body None no_content_server signed_in "/orders" no_options no_content);
    reflexivity.
Defined.

(** C5.  With [1e22] typed as the received amount the four validations
    pass and the order is sent; the amount in the body of the request is
    the text [1e+22], which is not fixed two-decimal text: [toFixed(2)]
    prints a number from [1e21] on as [Number::toString] does. *)
Theorem order_amount_1e22 :
  cartItems ready_1e22 <> [] /\
  Spec.holds_token signed_in = true /\
  parseMoney (receivedAmount ready_1e22) = Some 1e22%float /\
  (1e22 <=? 0)%float = false /\
  req_body <$> requests (handleSubmit None no_content_server signed_in ready_1e22)
  = [ Some (BodyString
              (Doc (JObject
                      [ ("items", JArray [ JObject [ ("product_id", JNumber 1);
                                                     ("quantity", JNumber 2) ] ]);
                        ("payments", JArray [ JObject [ ("method", JString "cash");
                                                        ("amount", JString "1e+22") ] ])
                      ]))) ] /\
  Spec.fixed_two_decimals "1e+22" = false.
Proof.
  split_and!.
  - discriminate.
  - reflexivity.
  - vm_compute. reflexivity.
  - reflexivity.
  - vm_compute. reflexivity.
  - reflexivity.
Qed.

(** A 200 answer whose body is a page of HTML. *)
Lemma parse_failure_witness :
  errorMessage (state (handleSubmit None html_server signed_in ready))
  = Some (JString "<html>Bad Gateway</html>").
Proof.
  refine (proj2 (proj2 (parse_failure_is_ApiError None html_server signed_in html_page
                          eq_refl eq_refl eq_refl)) ready 1100%float _ _ _ _ _).
  - discriminate.
  - reflexivity.
  - vm_compute. reflexivity.
  - reflexivity.
  - vm_compute. reflexivity.
Defined.


(** C1, as stated, fails: a 200 answer whose body is a page of HTML makes
    [apiFetch] throw an [ApiError], as a 502 answer does, and the page
    shows the HTML, not the message for an unexpected error. *)
Lemma parse_failure_not_unexpected :
  (exists e, snd (apiFetch None html_server signed_in "/orders" no_options) = Throw e /\
             instanceof_ApiError e = true) /\
  (exists e, snd (apiFetch None bad_gateway_server signed_in "/orders" no_options) = Throw e /\
             instanceof_ApiError e = true) /\
  errorMessage (state (handleSubmit None html_server signed_in ready))
  = Some (JString "<html>Bad Gateway</html>") /\
  errorMessage (state (handleSubmit None html_server signed_in ready))
  <> Some (JString MSG_UNEXPECTED).
Proof.
  split_and!.
  - eexists. split; vm_compute; reflexivity.
  - eexists. split; vm_compute; reflexivity.
  - vm_compute. reflexivity.
  - assert (H : errorMessage (state (handleSubmit None html_server signed_in ready))
                = Some (JString "<html>Bad Gateway</html>")) by (vm_compute; reflexivity).
    rewrite H. discriminate.
Qed.

(** ** The examples of the specification *)

(** White space outside ASCII is white space: the ideographic space and
    the no-break space are trimmed and skipped like the space. *)
Example unicode_white_space :
  String_trim (ideographic_space +:+ "1000" +:+ no_break_space) = "1000"%string /\
  parseMoney (ideographic_space +:+ "1000") = Some 1000%float /\
  String_trim ideographic_space = EmptyString /\
  sanitizeCartItem (JObject [ ("productId", JNumber 1);
                              ("quantity", JString (ideographic_space +:+ "2"));
                              ("unitPrice", JString (no_break_space +:+ "5")) ])
  = Some {| productId := 1; name := EmptyString; quantity := 2; unitPrice := 5;
            sku := None; taxRate := None |}.
Proof. split_and!; vm_compute; reflexivity. Qed.

Example sanitize_rejects_productId_0 :
  sanitizeCartItem (JObject [ ("productId", JNumber 0); ("quantity", JNumber 1);
                              ("unitPrice", JNumber 5) ]) = None.
Proof. reflexivity. Qed.

Example sanitize_rejects_quantity_0 :
  sanitizeCartItem (JObject [ ("productId", JNumber 1); ("quantity", JNumber 0);
                              ("unitPrice", JNumber 5) ]) = None.
Proof. reflexivity. Qed.

Example sanitize_rejects_unitPrice_text :
  sanitizeCartItem (JObject [ ("productId", JNumber 1); ("quantity", JNumber 1);
                              ("unitPrice", JString "abc") ]) = None.
Proof. vm_compute. reflexivity. Qed.

Example sanitize_alternate_names :
  sanitizeCartItem (JObject [ ("product_id", JNumber 7); ("quantity", JNumber 2);
                              ("unit_price", JNumber 3.5); ("tax_rate", JNumber 10) ])
  = Some {| productId := 7; name := EmptyString; quantity := 2; unitPrice := 3.5;
            sku := None; taxRate := Some 10%float |}.
Proof. reflexivity. Qed.

Example sanitize_accepts_negative_price :
  unitPrice <$> sanitizeCartItem (JObject [ ("productId", JNumber 1); ("quantity", JNumber 1);
                                            ("price", JString "-2.5") ])
  = Some (-2.5)%float.
Proof. vm_compute. reflexivity. Qed.

Example totals_three_at_10_005 :
  calculateCartTotals three_at_10_005
  = {| subtotal := 30.02; tax := 3; total := 33.02 |}.
Proof. vm_compute. reflexivity. Qed.

(** Rounding at each step is not rounding once at the end: two lines of
    0.004 each total 0, and their sum rounds to 0.01. *)
Example per_step_is_not_end_only :
  subtotal (calculateCartTotals two_lines_0_004) = 0%float /\
  subtotal (Spec.totals_rounded_at_end roundCurrency two_lines_0_004) = 0.01%float.
Proof. split; vm_compute; reflexivity. Qed.

Example parseMoney_examples :
  parseMoney "1100.00" = Some 1100%float /\
  parseMoney " 1,234.5 " = Some 1234.5%float /\
  parseMoney "10.999" = Some 11%float /\
  parseMoney "abc" = None /\
  parseMoney "-" = None /\
  parseMoney EmptyString = None.
Proof. split_and!; vm_compute; reflexivity. Qed.

Example change_and_shortage_examples :
  computedChange (parseMoney "1000") 1100 = 0%float /\
  shortage (parseMoney "1000") 1100 = 100%float /\
  computedChange (parseMoney "1200") 1100 = 100%float /\
  shortage (parseMoney "1200") 1100 = 0%float /\
  computedChange (parseMoney "x") 1100 = 0%float /\
  shortage (parseMoney "x") 1100 = 0%float.
Proof. split_and!; vm_compute; reflexivity. Qed.

Example empty_cart_is_rejected :
  Spec.rejected_locally signed_in (setCartItems [] ready) MSG_EMPTY_CART
    (handleSubmit None order_server signed_in (setCartItems [] ready)).
Proof. repeat split. Qed.

Example missing_token_is_rejected :
  Spec.rejected_locally empty_browser ready MSG_NO_TOKEN
    (handleSubmit None order_server empty_browser ready).
Proof. repeat split. Qed.

Example checkout_succeeds :
  let outcome := handleSubmit None order_server (writeCartItems (cartItems ready) signed_in) ready in
  cartItems (state outcome) = [] /\
  receivedAmount (state outcome) = EmptyString /\
  memo (state outcome) = EmptyString /\
  isSubmitting (state outcome) = false /\
  errorMessage (state outcome) = None /\
  get (orderResult (state outcome)) "order_no" = JString "X1" /\
  readCartItems (global outcome) = [] /\
  (chars <$> (getItem Auth.AUTH_STORAGE_KEY (Cart.storage (global outcome))))
  = Some "token-123"%string /\
  List.map (fun r => (url r, method r, Headers_get "Authorization" (req_headers r),
                      Headers_get "Content-Type" (req_headers r)))
           (requests outcome)
  = [ ("/orders", Some "POST", Some "Bearer token-123", Some "application/json") ]%string.
Proof. split_and!; vm_compute; reflexivity. Qed.

(** A memo of white space only is not sent. *)
Example blank_memo_is_omitted :
  req_body <$> requests (handleSubmit None order_server signed_in
                           (setMemo (ideographic_space +:+ " ") ready))
  = req_body <$> requests (handleSubmit None order_server signed_in ready).
Proof. vm_compute. reflexivity. Qed.

(** A 204 answer completes the checkout with no order to show: the order
    result is [undefined], no error is set and the stored cart is
    cleared. *)
Example empty_answer_is_no_result :
  let outcome :=
    handleSubmit None no_content_server (writeCartItems (cartItems ready) signed_in) ready in
  orderResult (state outcome) = JUndefined /\
  errorMessage (state outcome) = None /\
  cartItems (state outcome) = [] /\
  readCartItems (global outcome) = [].
Proof. split_and!; vm_compute; reflexivity. Qed.

Example rejected_order_shows_detail :
  errorMessage (state (handleSubmit None out_of_stock_server signed_in ready))
  = Some (JString "insufficient stock").
Proof. vm_compute. reflexivity. Qed.

Example auth_false_omits_header :
  (fun request => Headers_get "Authorization" (req_headers request))
  <$> fst (apiFetch None order_server signed_in "orders"
             {| opt_auth := Some false; opt_headers := None; opt_body := None;
                opt_method := None |})
  = Some None.
Proof. vm_compute. reflexivity. Qed.

(* ===================================================================== *)
(** * Further properties of the code                                      *)
(* ===================================================================== *)

(** ** The stores: reads after writes, events, and what is left alone *)

(** In a browser there is a window with a storage. *)
Lemma browser_window (g : Global) :
  Cart.isBrowser g = true ->
  exists st events, g = Some {| localStorage := Some st; dispatched := events |}.
Proof.
  destruct g as [[[st|] events]|]; try discriminate. intros _. eauto.
Qed.

Lemma keys_differ : Auth.AUTH_STORAGE_KEY <> CART_STORAGE_KEY.
Proof. discriminate. Qed.

Lemma keys_differ' : CART_STORAGE_KEY <> Auth.AUTH_STORAGE_KEY.
Proof. discriminate. Qed.

(** X1.  In a browser, a token that is not empty is read back as it was
    set. *)
Theorem token_read_after_set (g : Global) (token : string) :
  Auth.isBrowser g = true ->
  truthy_string token = true ->
  Auth.getAccessToken (Auth.setAccessToken (Some token) g) = Some token.
Proof.
  intros Hb Ht. destruct (browser_window g Hb) as (st & events & ->).
  unfold Auth.setAccessToken, Auth.emitAuthChange, Auth.getAccessToken.
  cbn -[setItem]. rewrite Ht. cbn -[setItem].
  unfold getItem, setItem. rewrite lookup_insert_eq. reflexivity.
Qed.

(** X2.  Clearing leaves no token to read, and setting an absent or empty
    token is clearing. *)
Theorem token_cleared (g : Global) :
  Auth.getAccessToken (Auth.clearAccessToken g) = None /\
  Auth.setAccessToken None g = Auth.clearAccessToken g /\
  Auth.setAccessToken (Some EmptyString) g = Auth.clearAccessToken g.
Proof.
  split_and!.
  - destruct g as [[[st|] events]|]; try reflexivity.
    unfold Auth.clearAccessToken, Auth.emitAuthChange, Auth.getAccessToken.
    cbn -[removeItem]. unfold getItem, removeItem. rewrite lookup_delete_eq. reflexivity.
  - unfold Auth.setAccessToken, Auth.clearAccessToken.
    destruct (negb (Auth.isBrowser g)); reflexivity.
  - unfold Auth.setAccessToken, Auth.clearAccessToken.
    destruct (negb (Auth.isBrowser g)); reflexivity.
Qed.

(** X3.  Outside a browser (no window, or a window without a storage)
    nothing is stored and nothing is dispatched: every write of the two
    stores leaves the global scope as it is, no token is read and the cart
    read is empty. *)
Theorem stores_outside_browser (g : Global) (token : option string)
    (items : list CartItem) :
  Cart.isBrowser g = false ->
  Auth.setAccessToken token g = g /\
  Auth.clearAccessToken g = g /\
  writeCartItems items g = g /\
  clearCartItems g = g /\
  Auth.getAccessToken g = None /\
  readCartItems g = [].
Proof.
  intros Hb.
  assert (Hb' : Auth.isBrowser g = false) by exact Hb.
  unfold Auth.setAccessToken, Auth.clearAccessToken, writeCartItems, clearCartItems,
    Auth.getAccessToken, readCartItems.
  rewrite Hb, Hb'. repeat split.
Qed.

(** X4.  The two stores do not touch each other's entry: writing or
    clearing the cart leaves the token that is read unchanged, and setting
    or clearing the token leaves the cart that is read unchanged. *)
Theorem stores_independent (g : Global) (token : option string) (items : list CartItem) :
  Auth.getAccessToken (writeCartItems items g) = Auth.getAccessToken g /\
  Auth.getAccessToken (clearCartItems g) = Auth.getAccessToken g /\
  readCartItems (Auth.setAccessToken token g) = readCartItems g /\
  readCartItems (Auth.clearAccessToken g) = readCartItems g.
Proof.
  pose proof keys_differ as Hk.
  assert (Hclear : readCartItems (Auth.clearAccessToken g) = readCartItems g).
  { destruct g as [[[st|] events]|]; try reflexivity.
    unfold Auth.clearAccessToken, Auth.emitAuthChange, readCartItems.
    cbn -[removeItem]. unfold getItem, removeItem.
    rewrite lookup_delete_ne by exact Hk. reflexivity. }
  split_and!.
  - destruct g as [[[st|] events]|]; try reflexivity.
    unfold writeCartItems, emitCartChange, Auth.getAccessToken.
    cbn -[setItem stringified]. unfold getItem, setItem.
    rewrite lookup_insert_ne by exact keys_differ'. reflexivity.
  - destruct g as [[[st|] events]|]; try reflexivity.
    unfold clearCartItems, emitCartChange, Auth.getAccessToken.
    cbn -[removeItem]. unfold getItem, removeItem.
    rewrite lookup_delete_ne by exact keys_differ'. reflexivity.
  - unfold Auth.setAccessToken.
    destruct (negb (Auth.isBrowser g)) eqn:Hb; [reflexivity|].
    destruct token as [t|]; [|exact Hclear].
    destruct (negb (truthy_string t)); [exact Hclear|].
    destruct g as [[[st|] events]|]; try reflexivity.
    unfold Auth.emitAuthChange, readCartItems.
    cbn -[setItem]. unfold getItem, setItem.
    rewrite lookup_insert_ne by exact Hk. reflexivity.
  - exact Hclear.
Qed.

Lemma cart_read_after_clear (g : Global) : readCartItems (clearCartItems g) = [].
Proof.
  destruct g as [[[st|] events]|]; try reflexivity.
  unfold clearCartItems, emitCartChange, readCartItems.
  cbn -[removeItem]. unfold getItem, removeItem. rewrite lookup_delete_eq. reflexivity.
Qed.

Lemma token_after_cart_clear (g : Global) :
  Auth.getAccessToken (clearCartItems g) = Auth.getAccessToken g.
Proof.
  destruct g as [[[st|] events]|]; try reflexivity.
  unfold clearCartItems, emitCartChange, Auth.getAccessToken.
  cbn -[removeItem]. unfold getItem, removeItem.
  rewrite lookup_delete_ne by exact keys_differ'. reflexivity.
Qed.

(** X5.  In a browser every write is announced once: the write adds one
    event to those dispatched, of the store's event type, carrying what
    was written (the items, an empty array after a clear, the token, or
    [null] after a clear). *)
Theorem writes_are_announced (g : Global) (items : list CartItem) (token : string) :
  Cart.isBrowser g = true ->
  Scope.events (writeCartItems items g)
  = {| type := CART_EVENT; detail := items_value items |} :: Scope.events g /\
  Scope.events (clearCartItems g)
  = {| type := CART_EVENT; detail := JArray [] |} :: Scope.events g /\
  Scope.events (Auth.clearAccessToken g)
  = {| type := Auth.AUTH_EVENT; detail := JNull |} :: Scope.events g /\
  (truthy_string token = true ->
   Scope.events (Auth.setAccessToken (Some token) g)
   = {| type := Auth.AUTH_EVENT; detail := JString token |} :: Scope.events g).
Proof.
  intros Hb. destruct (browser_window g Hb) as (st & events & ->).
  split_and!; try reflexivity.
  intros Ht. unfold Auth.setAccessToken. cbn -[setItem]. rewrite Ht. reflexivity.
Qed.

(** What [sanitizeCartItem] returns satisfies the sanitization
    invariant. *)
Lemma sanitize_sanitized (input : jsval) (i : CartItem) :
  sanitizeCartItem input = Some i -> Spec.sanitized i = true.
Proof.
  intros H.
  assert (Hobj : Spec.is_object input).
  { apply is_object_dec. unfold sanitizeCartItem in H.
    destruct (negb _ || _); [discriminate|reflexivity]. }
  rewrite (sanitizeCartItem_object input Hobj) in H. cbv zeta in H.
  match type of H with (if ?c then _ else _) = _ => destruct c eqn:Hc end;
    [|discriminate].
  apply (f_equal (from_option Spec.sanitized false)) in H. cbn [from_option] in H.
  rewrite <- H. unfold Spec.sanitized.
  cbn [productId quantity unitPrice taxRate].
  rewrite !andb_true_iff in Hc. destruct Hc as [[[H1 H2] [H3 H4]] H5].
  rewrite H1, H2, H3, H4, H5. cbn [andb].
  unfold Spec.finite_number_only.
  destruct (Number_isFinite (Number (Spec.first_present input ["taxRate"; "tax_rate"]))) eqn:H6;
    [exact H6|reflexivity].
Qed.

(** X6.  Every item that [readCartItems] returns satisfies the
    sanitization invariant, whatever is stored; and after
    [clearCartItems] it returns none. *)
Theorem read_items_are_sanitized (g : Global) :
  Forall (fun i => Spec.sanitized i = true) (readCartItems g) /\
  readCartItems (clearCartItems g) = [].
Proof.
  split; [|apply cart_read_after_clear].
  unfold readCartItems.
  destruct (negb (isBrowser g)); [constructor|].
  destruct (getItem CART_STORAGE_KEY (Cart.storage g)) as [rawValue|]; [|constructor].
  destruct (negb (truthy_text rawValue)); [constructor|].
  destruct (JSON_parse rawValue) as [[| | | | |parsed|]|]; try constructor.
  induction parsed as [|x rest IH]; [constructor|].
  cbn [omap list_omap]. destruct (sanitizeCartItem x) as [i|] eqn:E; [|exact IH].
  constructor; [exact (sanitize_sanitized x i E)|exact IH].
Qed.



Lemma sanitize_item_value (i : CartItem) :
  Spec.sanitized i = true -> sanitizeCartItem (item_value i) = Some i.
Proof.
  intros H. rewrite sanitizeCartItem_object by (split; [reflexivity|discriminate]).
  destruct i as [pid nm qty price sk tr].
  unfold Spec.sanitized, item_value in *.
  cbn [productId name quantity unitPrice sku taxRate] in *.
  rewrite !andb_true_iff in H. destruct H as [[[[[Hint Hpid] Hqf] Hqty] Hpf] Htr].
  destruct sk as [s|], tr as [r|];
    cbn -[Number_isFinite is_zero Number_isInteger];
    unfold Spec.finite_number_only;
    cbn -[Number_isFinite is_zero Number_isInteger];
    rewrite ?Hint, ?Hpid, ?Hqf, ?Hqty, ?Hpf, ?Htr; reflexivity.
Qed.

(** X8.  Sanitization is idempotent: an item that [sanitizeCartItem]
    returned is returned unchanged, in every field, when it is sanitized
    again. *)
Theorem sanitize_idempotent (input : jsval) (i : CartItem) :
  sanitizeCartItem input = Some i ->
  sanitizeCartItem (item_value i) = Some i.
Proof.
  intros H. apply sanitize_item_value. exact (sanitize_sanitized input i H).
Qed.

(** ** Binary64 facts: signs through the arithmetic of [roundCurrency] *)

Section Signs.

Lemma binary_round_sign s m e : has_sign s (binary_round prec emax s m e).
Proof.
  unfold binary_round. destruct (shl_align _ _ _) as [mz ez].
  apply binary_round_aux_sign.
Qed.

Lemma binary_normalize_sign m e : (0 <= m)%Z -> has_sign false (binary_normalize prec emax m e false).
Proof.
  destruct m as [|p|p]; intros H; simpl; [reflexivity|apply binary_round_sign|lia].
Qed.

Lemma SFadd_sign x y :
  has_sign false x -> has_sign false y -> has_sign false (SFadd prec emax x y).
Proof.
  destruct x as [sx|sx| |sx mx ex], y as [sy|sy| |sy my ey]; simpl; intros Hx Hy;
    subst; simpl; auto.
  apply binary_round_sign.
Qed.

Lemma SFmul_sign x m e :
  has_sign false x -> has_sign false (SFmul prec emax x (S754_finite false m e)).
Proof.
  destruct x as [sx|sx| |sx mx ex]; simpl; intros Hx; subst; simpl; auto.
  apply binary_round_aux_sign.
Qed.

Lemma SFdiv_sign x m e :
  has_sign false x -> has_sign false (SFdiv prec emax x (S754_finite false m e)).
Proof.
  destruct x as [sx|sx| |sx mx ex]; simpl; intros Hx; subst; simpl; auto.
  destruct (SFdiv_core_binary _ _ _ _ _ _) as [[mz ez] lz].
  apply binary_round_aux_sign.
Qed.

Lemma SFldexp_sign f e : has_sign false f -> has_sign false (SFldexp prec emax f e).
Proof.
  destruct f as [s|s| |s m e']; simpl; intros H; subst; auto.
  apply binary_round_sign.
Qed.

(** The sign of a number made from a specification that has none. *)
Lemma SF2Prim_sign r : has_sign false r -> has_sign false (Prim2SF (SF2Prim r)).
Proof.
  destruct r as [s|s| |s m e]; simpl; intros H; subst; try exact I; try reflexivity.
  rewrite Z_ldexp_spec. apply SFldexp_sign.
  rewrite of_uint63_spec. apply binary_normalize_sign.
  apply Uint63.to_Z_bounded.
Qed.

Lemma Math_round_sign x :
  has_sign false (Prim2SF x) -> has_sign false (Prim2SF (Math_round x)).
Proof.
  unfold Math_round. intros H.
  destruct (Prim2SF x) as [s|s| |s m e] eqn:E; try (rewrite E; exact H).
  simpl in H. subst s.
  destruct (0 <=? e)%Z eqn:He; [rewrite E; reflexivity|].
  cbn [cond_Zopp].
  destruct (_ =? 0)%Z eqn:Hn; [reflexivity|].
  unfold float_of_Z. apply SF2Prim_sign, binary_normalize_sign.
  apply Z.div_pos; [|assert (0 < 2 ^ (- e))%Z by (apply Z.pow_pos_nonneg; lia); lia].
  assert (0 < 2 ^ (- e))%Z by (apply Z.pow_pos_nonneg; lia). lia.
Qed.

(** [roundCurrency] of a number that is not negative is not negative. *)
Lemma roundCurrency_sign x :
  has_sign false (Prim2SF x) -> has_sign false (Prim2SF (Page.roundCurrency x)).
Proof.
  intros H. unfold Page.roundCurrency.
  rewrite div_spec. change (Prim2SF 100) with (S754_finite false 7036874417766400 (-46)).
  apply SFdiv_sign, Math_round_sign.
  rewrite mul_spec. change (Prim2SF 100) with (S754_finite false 7036874417766400 (-46)).
  apply SFmul_sign. rewrite add_spec. apply SFadd_sign; [exact H|reflexivity].
Qed.

Lemma sign_not_negative x : has_sign false (Prim2SF x) -> (x <? 0)%float = false.
Proof.
  rewrite FloatAxioms.ltb_spec. change (Prim2SF 0) with (S754_zero false).
  destruct (Prim2SF x) as [s|s| |s m e]; simpl; intros H; subst; reflexivity.
Qed.

Lemma positive_sign x : (0 <? x)%float = true -> has_sign false (Prim2SF x).
Proof.
  rewrite ltb_zero_spec. intros [H|(m & e & H)]; rewrite H; reflexivity.
Qed.

(** The difference of two numbers, the first of which is not at most the
    second, is not negative. *)
Lemma SFsub_sign x y :
  valid_binary x = true -> valid_binary y = true ->
  SFleb x y = false -> has_sign false (SFsub prec emax x y).
Proof.
  intros Vx Vy.
  destruct x as [sx|sx| |sx mx ex], y as [sy|sy| |sy my ey];
    try (lazymatch goal with
         | |- context [SFsub _ _ (S754_finite _ _ _) (S754_finite _ _ _)] => fail
         | _ => idtac
         end;
         intros H; repeat match goal with s : bool |- _ => destruct s end;
         simpl in H |- *; (discriminate || reflexivity || exact I)).
  simpl in Vx, Vy. unfold SFsub, SFleb, SFcompare. intros H.
  apply binary_normalize_sign. rewrite !shl_align_fst by lia.
  assert (0 < 2 ^ (ex - Z.min ex ey))%Z by (apply Z.pow_pos_nonneg; lia).
  assert (0 < 2 ^ (ey - Z.min ex ey))%Z by (apply Z.pow_pos_nonneg; lia).
  destruct sx, sy; simpl cond_Zopp; try discriminate H; [| nia |].
  - destruct (Z.compare_spec ex ey) as [E|E|E]; try discriminate H.
    + subst. rewrite Z.min_id, Z.sub_diag. simpl.
      rewrite Pos.compare_cont_spec in H. simpl in H.
      destruct (Pos.compare_spec mx my); simpl in H; try discriminate H; lia.
    + pose proof (larger_exponent _ _ _ _ Vx Vy E).
      rewrite Z.min_l by lia. rewrite Z.sub_diag. simpl. lia.
  - destruct (Z.compare_spec ex ey) as [E|E|E]; try discriminate H.
    + subst. rewrite Z.min_id, Z.sub_diag. simpl.
      rewrite Pos.compare_cont_spec in H. simpl in H.
      destruct (Pos.compare_spec mx my); simpl in H; try discriminate H; lia.
    + pose proof (larger_exponent _ _ _ _ Vy Vx E).
      rewrite Z.min_r by lia. rewrite Z.sub_diag. simpl. lia.
Qed.

End Signs.


(** ** Binary64 facts: what is not [NaN] *)

Section NotNaN.

Lemma shr_1_nonneg mrs : (0 <= shr_m mrs)%Z -> (0 <= shr_m (shr_1 mrs))%Z.
Proof.
  destruct mrs as [m r s]. simpl. destruct m as [|[p|p|]|[p|p|]]; simpl; lia.
Qed.

Lemma iter_pos_invariant {A} (P : A -> Prop) (f : A -> A) :
  (forall x, P x -> P (f x)) -> forall p x, P x -> P (SpecFloat.iter_pos f p x).
Proof.
  intros Hf. induction p as [p IH|p IH|]; intros x Hx; simpl; auto.
Qed.

Lemma shr_fexp_nonneg m e l :
  (0 <= m)%Z -> (0 <= shr_m (fst (shr_fexp prec emax m e l)))%Z.
Proof.
  intros Hm. unfold shr_fexp, shr.
  assert (H0 : (0 <= shr_m (shr_record_of_loc m l))%Z).
  { destruct l as [|[]]; exact Hm. }
  destruct (fexp prec emax (Zdigits2 m + e) - e)%Z as [|p|p]; simpl; try exact H0.
  apply (iter_pos_invariant (fun mrs => (0 <= shr_m mrs)%Z)); [apply shr_1_nonneg|exact H0].
Qed.

Lemma round_nearest_even_nonneg m l : (0 <= m)%Z -> (0 <= round_nearest_even m l)%Z.
Proof.
  intros Hm. unfold round_nearest_even. destruct l as [|[]]; try lia.
  destruct (Z.even m); lia.
Qed.

(** Rounding a mantissa that is not negative does not give [NaN]. *)
Lemma binary_round_aux_defined s m e l :
  (0 <= m)%Z -> binary_round_aux prec emax s m e l <> S754_nan.
Proof.
  intros Hm. unfold binary_round_aux.
  pose proof (shr_fexp_nonneg m e l Hm) as H1.
  destruct (shr_fexp prec emax m e l) as [mrs' e']. simpl in H1.
  pose proof (shr_fexp_nonneg _ e' loc_Exact
                (round_nearest_even_nonneg _ (loc_of_shr_record mrs') H1)) as H2.
  destruct (shr_fexp prec emax _ e' loc_Exact) as [mrs'' e'']. simpl in H2.
  destruct (shr_m mrs'') as [|p|p]; try discriminate; try lia.
  destruct (e'' <=? emax - prec)%Z; discriminate.
Qed.

Lemma binary_round_defined s m e : binary_round prec emax s m e <> S754_nan.
Proof.
  unfold binary_round. destruct (shl_align _ _ _) as [mz ez].
  apply binary_round_aux_defined. lia.
Qed.

Lemma binary_normalize_defined m e : binary_normalize prec emax m e false <> S754_nan.
Proof.
  destruct m; simpl; try discriminate; apply binary_round_defined.
Qed.

Lemma SFmul_pos_defined x s m e :
  x <> S754_nan -> SFmul prec emax x (S754_finite s m e) <> S754_nan.
Proof.
  destruct x as [sx|sx| |sx mx ex]; simpl; intros Hx; try discriminate; try congruence.
  apply binary_round_aux_defined. lia.
Qed.

Lemma SFdiv_defined x s m e :
  x <> S754_nan -> SFdiv prec emax x (S754_finite s m e) <> S754_nan.
Proof.
  destruct x as [sx|sx| |sx mx ex]; simpl; intros Hx; try discriminate; try congruence.
  unfold SFdiv_core_binary.
  set (m' := match _ with Zpos _ => _ | Z0 => _ | Zneg _ => _ end).
  assert (Hm' : (0 <= m')%Z).
  { subst m'. destruct (_ - _ - _)%Z; try lia. apply Z.shiftl_nonneg. lia. }
  pose proof (Z.div_pos m' (Zpos m) Hm' ltac:(lia)) as Hq.
  unfold Z.div in Hq. destruct (Z.div_eucl m' (Zpos m)) as [q r].
  apply binary_round_aux_defined. exact Hq.
Qed.

Lemma SFldexp_defined f e : f <> S754_nan -> SFldexp prec emax f e <> S754_nan.
Proof.
  destruct f as [s|s| |s m e']; simpl; intros H; try discriminate; try congruence.
  apply binary_round_defined.
Qed.

Lemma SF2Prim_defined r : r <> S754_nan -> Prim2SF (SF2Prim r) <> S754_nan.
Proof.
  destruct r as [[]|[]| |s m e]; simpl; intros H; try discriminate; try congruence.
  assert (Hf : Prim2SF (Z.ldexp (of_uint63 (Uint63Axioms.of_Z (Zpos m))) e) <> S754_nan).
  { rewrite Z_ldexp_spec. apply SFldexp_defined.
    rewrite of_uint63_spec. apply binary_normalize_defined. }
  destruct s; [|exact Hf].
  rewrite opp_spec. destruct (Prim2SF _); simpl; try discriminate. congruence.
Qed.

Lemma Math_round_defined x : Prim2SF x <> S754_nan -> Prim2SF (Math_round x) <> S754_nan.
Proof.
  unfold Math_round. intros H.
  destruct (Prim2SF x) as [s|s| |s m e] eqn:E; try (rewrite E; exact H).
  destruct (0 <=? e)%Z; [rewrite E; discriminate|].
  destruct (_ =? 0)%Z; [destruct s; discriminate|].
  unfold float_of_Z. apply SF2Prim_defined.
  destruct (_ / _)%Z; simpl; try discriminate; apply binary_round_defined.
Qed.

Lemma SFadd_pos_defined x m e :
  has_sign false x -> x <> S754_nan ->
  SFadd prec emax x (S754_finite false m e) <> S754_nan.
Proof.
  destruct x as [sx|sx| |sx mx ex]; simpl; intros Hs Hx; subst; try discriminate;
    try congruence.
  apply binary_round_defined.
Qed.

(** [roundCurrency] of a number that is positive is a number. *)
Lemma roundCurrency_defined x :
  has_sign false (Prim2SF x) -> Prim2SF x <> S754_nan ->
  Prim2SF (Page.roundCurrency x) <> S754_nan.
Proof.
  intros Hs Hx. unfold Page.roundCurrency.
  rewrite div_spec. change (Prim2SF 100) with (S754_finite false 7036874417766400 (-46)).
  apply SFdiv_defined, Math_round_defined.
  rewrite mul_spec. change (Prim2SF 100) with (S754_finite false 7036874417766400 (-46)).
  apply SFmul_pos_defined. rewrite add_spec.
  change (Prim2SF Number_EPSILON) with (S754_finite false 4503599627370496 (-104)).
  apply SFadd_pos_defined; assumption.
Qed.

Lemma nonneg_leb x :
  has_sign false (Prim2SF x) -> Prim2SF x <> S754_nan -> (0 <=? x)%float = true.
Proof.
  rewrite FloatAxioms.leb_spec. change (Prim2SF 0) with (S754_zero false).
  destruct (Prim2SF x) as [s|s| |s m e]; simpl; intros H Hn; subst; try reflexivity.
  congruence.
Qed.

(** What [parseMoney] returns is a number. *)
Lemma parseMoney_defined (input : string) (parsed : float) :
  parseMoney input = Some parsed -> Prim2SF parsed <> S754_nan.
Proof.
  unfold parseMoney.
  destruct (negb (truthy_string (String_trim input))); [discriminate|].
  set (numeric := StringToNumber _).
  assert (H : Number_isFinite numeric = true -> Prim2SF (Math_round (numeric * 100) / 100) <> S754_nan).
  { intros Hfin. rewrite div_spec.
    change (Prim2SF 100) with (S754_finite false 7036874417766400 (-46)).
    apply SFdiv_defined, Math_round_defined. rewrite mul_spec.
    change (Prim2SF 100) with (S754_finite false 7036874417766400 (-46)).
    apply SFmul_pos_defined. apply isFinite_spec in Hfin.
    destruct Hfin as [[s E]|(s & m & e & E)]; rewrite E; discriminate. }
  destruct (negb (money_pattern _) || _ || _ || _);
    destruct (Number_isFinite numeric); try discriminate;
    intros E; injection E as <-; simpl; apply H; reflexivity.
Qed.

End NotNaN.

(** ** Amounts: what is parsed, computed and shown *)

Lemma positive_defined x : (0 <? x)%float = true -> Prim2SF x <> S754_nan.
Proof.
  rewrite ltb_zero_spec. intros [H|(m & e & H)]; rewrite H; discriminate.
Qed.

(** X9.  Whatever the total and the received amount, the change is a
    number that is at least 0, and the shortage is never negative. *)
Theorem change_and_shortage_not_negative (parsedReceivedAmount : option float)
    (total : float) :
  (0 <=? computedChange parsedReceivedAmount total)%float = true /\
  (shortage parsedReceivedAmount total <? 0)%float = false.
Proof.
  destruct parsedReceivedAmount as [parsed|]; [|split; reflexivity].
  cbn [computedChange shortage]. split.
  - destruct (0 <? parsed - total)%float eqn:Hdiff; [|reflexivity].
    apply nonneg_leb.
    + apply roundCurrency_sign, positive_sign, Hdiff.
    + apply roundCurrency_defined; [apply positive_sign|apply positive_defined]; exact Hdiff.
  - destruct (total <=? parsed)%float eqn:Hle; [reflexivity|].
    apply sign_not_negative, roundCurrency_sign.
    rewrite sub_spec. rewrite FloatAxioms.leb_spec in Hle.
    apply SFsub_sign; try apply Prim2SF_valid. exact Hle.
Qed.

(** X10.  An amount that [parseMoney] returns is never [NaN], so the
    amounts that pass the check [parsed <= 0] of [handleSubmit] are exactly
    the amounts greater than 0. *)
Theorem parsed_amount_is_a_number (input : string) (parsed : float) :
  parseMoney input = Some parsed ->
  is_nan parsed = false /\
  (parsed <=? 0)%float = negb (0 <? parsed)%float.
Proof.
  intros H. apply parseMoney_defined in H.
  split.
  - apply not_true_iff_false. rewrite is_nan_spec. exact H.
  - rewrite FloatAxioms.leb_spec, FloatAxioms.ltb_spec.
    change (Prim2SF 0) with (S754_zero false).
    destruct (Prim2SF parsed) as [[]|[]| |[] m e]; try reflexivity. congruence.
Qed.

(** X11.  The change field never shows a negative number or [NaN]: it
    shows fixed two-decimal text whenever the change is below [1e21]. *)
Theorem change_text_fixed (parsedReceivedAmount : option float) (total : float) :
  (computedChange parsedReceivedAmount total <? 1e21)%float = true ->
  Spec.fixed_two_decimals
    (View.changeText (computedChange parsedReceivedAmount total)) = true.
Proof.
  intros Hlt. unfold View.changeText, View.truthy_number.
  destruct (is_zero _ || is_nan _) eqn:Hz; cbn [negb]; [reflexivity|].
  apply toFixed2_fixed; [|exact Hlt].
  apply orb_false_iff in Hz as [Hzero Hnan].
  destruct parsedReceivedAmount as [parsed|]; [|discriminate Hzero].
  cbn [computedChange] in *.
  destruct (0 <? parsed - total)%float eqn:Hdiff; [|discriminate Hzero].
  apply leb_zero_spec.
  pose proof (roundCurrency_sign _ (positive_sign _ Hdiff)) as Hs.
  apply not_true_iff_false in Hzero. rewrite is_zero_spec in Hzero.
  destruct (Prim2SF (Page.roundCurrency (parsed - total))) as [s|s| |s m e];
    simpl in Hs; subst; eauto.
  exfalso. eauto.
Qed.

Section Formatting.

Variable format : float -> string.

(** X12.  [formatCurrency] formats a finite number as the formatter prints
    it, and 0 in place of a number that is not finite; a string that is
    the text of a finite number is formatted as that number, and any other
    string is returned as it is.  So the formatter is never handed a number
    that is not finite. *)
Theorem formatCurrency_finite (value : float + string) :
  View.formatCurrency format value
  = match value with
    | inl number => format (if Number_isFinite number then number else 0%float)
    | inr text =>
        if Number_isFinite (StringToNumber text)
        then format (StringToNumber text)
        else text
    end /\
  ((exists number,
      Number_isFinite number = true /\
      View.formatCurrency format value = format number) \/
   (exists text,
      value = inr text /\
      Number_isFinite (StringToNumber text) = false /\
      View.formatCurrency format value = text)).
Proof.
  assert (Hnum : forall x, exists number,
             Number_isFinite number = true /\
             (if negb (Number_isFinite x) then format 0 else format x) = format number).
  { intros x. destruct (Number_isFinite x) eqn:E; cbn [negb].
    - exists x. split; [exact E|reflexivity].
    - exists 0%float. split; reflexivity. }
  destruct value as [number|text]; cbn [View.formatCurrency Number].
  - split; [destruct (Number_isFinite number); reflexivity|].
    left. apply Hnum.
  - destruct (Number_isFinite (StringToNumber text)) eqn:E.
    + split; [reflexivity|].
      left. exists (StringToNumber text). split; [exact E|reflexivity].
    + split; [reflexivity|].
      right. exists text. repeat split. exact E.
Qed.

End Formatting.

(** *** Text of a number is never empty *)

Lemma truthy_app (a b : string) :
  truthy_string (a +:+ b) = truthy_string a || truthy_string b.
Proof. destruct a; reflexivity. Qed.

Lemma Number_toString_truthy (x : float) : truthy_string (Number_toString x) = true.
Proof.
  unfold Number_toString.
  destruct (Prim2SF x) as [s|[]| |sg m e]; try reflexivity.
  destruct (if (0 <=? e)%Z then _ else _) as [p q].
  destruct (shortest_digits _ _ _ _ _ _) as [s n].
  cbv zeta. rewrite truthy_app. apply orb_true_iff. right.
  pose proof (proj2 (string_of_Z_digits s)) as Hds.
  repeat match goal with
         | |- context [if ?c then _ else _] => destruct c
         end;
    rewrite ?truthy_app, ?Hds, ?orb_true_r; try reflexivity.
Qed.

Lemma Number_toFixed2_truthy (x : float) : truthy_string (Number_toFixed2 x) = true.
Proof.
  unfold Number_toFixed2.
  destruct (Prim2SF x) as [s|s| |sg m e] eqn:E; try reflexivity.
  - rewrite <- (Number_toString_truthy x). unfold Number_toString. rewrite E. reflexivity.
  - rewrite <- (Number_toString_truthy x). unfold Number_toString. rewrite E. reflexivity.
  - destruct (1e21 <=? abs x)%float; [apply Number_toString_truthy|].
    destruct (if (0 <=? e)%Z then _ else _) as [p q]. cbv zeta.
    rewrite !truthy_app, (proj2 (string_of_Z_digits _)). apply orb_true_r.
Qed.

(** X13.  The effect that fills in the received amount settles after one
    run: running it again changes nothing.  It changes no field but the
    received amount, and never replaces text that is already there. *)
Theorem autofill_settles (st : PageState) :
  autofill (autofill st) = autofill st /\
  setReceivedAmount (receivedAmount st) (autofill st)
  = setReceivedAmount (receivedAmount st) st /\
  (truthy_string (receivedAmount st) = true -> autofill st = st).
Proof.
  destruct st as [items method received note submitting error result].
  unfold autofill. cbn [paymentMethod cartItems receivedAmount].
  split_and!.
  - destruct (negb _ && negb (Nat.eqb (List.length items) 0) && negb (truthy_string received))
      eqn:E.
    + cbn [paymentMethod cartItems receivedAmount]. rewrite Number_toFixed2_truthy.
      rewrite andb_false_r. reflexivity.
    + cbn [paymentMethod cartItems receivedAmount]. rewrite E. reflexivity.
  - destruct (negb _ && _ && _); reflexivity.
  - intros ->. rewrite andb_false_r. reflexivity.
Qed.

(** ** Totals *)

Lemma add_zero_r (y : float) : Prim2SF y <> S754_zero true -> (y + 0)%float = y.
Proof.
  intros H. apply Prim2SF_inj. rewrite add_spec.
  change (Prim2SF 0) with (S754_zero false).
  destruct (Prim2SF y) as [[]|[]| |s m e]; simpl; first [reflexivity | congruence].
Qed.

Lemma add_zero_l (y : float) : Prim2SF y <> S754_zero true -> (0 + y)%float = y.
Proof.
  intros H. apply Prim2SF_inj. rewrite add_spec.
  change (Prim2SF 0) with (S754_zero false).
  destruct (Prim2SF y) as [[]|[]| |s m e]; simpl; first [reflexivity | congruence].
Qed.

Lemma add_neg_zero_l (y : float) : Prim2SF y <> S754_zero true -> ((-0) + y)%float = y.
Proof.
  intros H. apply Prim2SF_inj. rewrite add_spec.
  change (Prim2SF (-0)) with (S754_zero true).
  destruct (Prim2SF y) as [[]|[]| |s m e]; simpl; first [reflexivity | congruence].
Qed.

Lemma neg_zero_shape (y : float) : Prim2SF y = S754_zero true -> y = neg_zero.
Proof. intros H. apply Prim2SF_inj. rewrite H. reflexivity. Qed.

Lemma shape_dec (y : float) : {Prim2SF y = S754_zero true} + {Prim2SF y <> S754_zero true}.
Proof. destruct (Prim2SF y) as [[]|[]| |s m e]; (left; reflexivity) || (right; discriminate). Qed.

(** Adding zero does not change what a sum rounds to. *)
Lemma roundCurrency_add_zero (y : float) : roundCurrency (y + 0) = roundCurrency y.
Proof.
  destruct (shape_dec y) as [E|E].
  - rewrite (neg_zero_shape y E). reflexivity.
  - rewrite add_zero_r by exact E. reflexivity.
Qed.

Lemma roundCurrency_zero_add (a b : float) :
  roundCurrency (0 + a + b) = roundCurrency (a + b).
Proof.
  destruct (shape_dec a) as [Ea|Ea].
  - rewrite (neg_zero_shape a Ea). change (0 + neg_zero)%float with 0%float.
    destruct (shape_dec b) as [Eb|Eb].
    + rewrite (neg_zero_shape b Eb). reflexivity.
    + rewrite add_zero_l, add_neg_zero_l by exact Eb. reflexivity.
  - rewrite add_zero_l by exact Ea. reflexivity.
Qed.

(** A finite number times zero is a zero, which rounds to zero. *)
Lemma roundCurrency_mul_zero (x : float) :
  Number_isFinite x = true -> roundCurrency (x * (0 / 100)) = 0%float.
Proof.
  intros H. change (0 / 100)%float with 0%float.
  assert (Hz : (x * 0)%float = 0%float \/ (x * 0)%float = neg_zero).
  { apply isFinite_spec in H.
    assert (E : exists s, Prim2SF (x * 0) = S754_zero s).
    { rewrite mul_spec. change (Prim2SF 0) with (S754_zero false).
      destruct H as [[s E]|(s & m & e & E)]; rewrite E; simpl; eauto. }
    destruct E as [[] E]; [right|left]; apply Prim2SF_inj; rewrite E; reflexivity. }
  destruct Hz as [-> | ->]; reflexivity.
Qed.

Lemma untaxed_from (items : list CartItem) (running : CartTotals) :
  Forall (fun i => taxRate i = None /\
                   Number_isFinite (Cart.roundCurrency (unitPrice i * quantity i)) = true) items ->
  tax running = 0%float -> total running = subtotal running ->
  let result :=
    fold_left
      (fun accumulator item =>
         let lineSubtotal := roundCurrency (unitPrice item * quantity item) in
         let lineTax :=
           roundCurrency (lineSubtotal * (default 0%float (taxRate item) / 100)) in
         {| subtotal := roundCurrency (subtotal accumulator + lineSubtotal);
            tax := roundCurrency (tax accumulator + lineTax);
            total := roundCurrency (total accumulator + lineSubtotal + lineTax) |})%float
      items running in
  tax result = 0%float /\ total result = subtotal result.
Proof.
  intros Hitems. revert running.
  induction Hitems as [|item rest [Hrate Hfin] _ IH]; intros running Htax Htotal; cbn zeta.
  - split; assumption.
  - cbn [fold_left]. apply IH; cbn [tax total subtotal]; rewrite Hrate; cbn [default from_option id].
    + rewrite roundCurrency_mul_zero by exact Hfin. rewrite Htax. reflexivity.
    + rewrite roundCurrency_mul_zero by exact Hfin.
      rewrite roundCurrency_add_zero, Htotal. reflexivity.
Qed.

(** X15.  For a cart in which no item has a tax rate and no line subtotal
    overflows, the tax is 0 and the total is the subtotal. *)
Theorem untaxed_totals (items : list CartItem) :
  Forall (fun i => taxRate i = None /\
                   Number_isFinite (Cart.roundCurrency (unitPrice i * quantity i)) = true) items ->
  tax (calculateCartTotals items) = 0%float /\
  total (calculateCartTotals items) = subtotal (calculateCartTotals items).
Proof.
  intros H. unfold calculateCartTotals.
  apply (untaxed_from items {| subtotal := 0; tax := 0; total := 0 |} H); reflexivity.
Qed.

(** X16.  For a cart of one line, the total of the line shown in the
    table is the total of the cart. *)
Theorem single_line_total (item : CartItem) :
  View.lineTotal item = total (calculateCartTotals [item]).
Proof.
  unfold View.lineTotal, calculateCartTotals. cbn [fold_left total].
  symmetry. apply roundCurrency_zero_add.
Qed.

(** ** Totals of a cart without negative numbers *)

Section NotNegative.

Lemma ltb_zero_false x : (x <? 0)%float = false <-> not_negative (Prim2SF x).
Proof. rewrite FloatAxioms.ltb_spec. reflexivity. Qed.

Lemma sign_not_negative' r : has_sign false r -> not_negative r.
Proof. destruct r as [s|s| |s m e]; simpl; intros H; subst; reflexivity. Qed.

Lemma SFmul_not_negative x y :
  not_negative x -> not_negative y -> not_negative (SFmul prec emax x y).
Proof.
  destruct x as [[]|[]| |[] mx ex], y as [[]|[]| |[] my ey]; intros Hx Hy;
    try discriminate Hx; try discriminate Hy; try reflexivity.
  apply sign_not_negative'. simpl. apply binary_round_aux_sign.
Qed.

Lemma SFdiv_not_negative x m e :
  not_negative x -> not_negative (SFdiv prec emax x (S754_finite false m e)).
Proof.
  destruct x as [[]|[]| |[] mx ex]; intros Hx; try discriminate Hx; try reflexivity.
  apply sign_not_negative', SFdiv_sign. reflexivity.
Qed.

Lemma SFadd_positive_sign x m e :
  not_negative x -> has_sign false (SFadd prec emax x (S754_finite false m e)).
Proof.
  destruct x as [[]|[]| |[] mx ex]; intros Hx; try discriminate Hx; try reflexivity.
  apply SFadd_sign; reflexivity.
Qed.

(** [roundCurrency] of a number that is not negative has a positive sign:
    a negative zero is rounded to zero. *)
Lemma roundCurrency_not_negative x :
  not_negative (Prim2SF x) -> has_sign false (Prim2SF (Cart.roundCurrency x)).
Proof.
  intros H. unfold Cart.roundCurrency.
  rewrite div_spec. change (Prim2SF 100) with (S754_finite false 7036874417766400 (-46)).
  apply SFdiv_sign, Math_round_sign.
  rewrite mul_spec. change (Prim2SF 100) with (S754_finite false 7036874417766400 (-46)).
  apply SFmul_sign. rewrite add_spec.
  change (Prim2SF Number_EPSILON) with (S754_finite false 4503599627370496 (-104)).
  apply SFadd_positive_sign. exact H.
Qed.

Lemma roundCurrency_add_sign x y :
  has_sign false (Prim2SF x) -> has_sign false (Prim2SF y) ->
  has_sign false (Prim2SF (Cart.roundCurrency (x + y))).
Proof.
  intros Hx Hy. apply roundCurrency_not_negative, sign_not_negative'.
  rewrite add_spec. apply SFadd_sign; assumption.
Qed.

End NotNegative.

(** X14.  A cart in which no unit price, quantity or tax rate is less than
    zero has a subtotal, a tax and a total that are not less than zero. *)
Theorem totals_not_negative (items : list CartItem) :
  Forall (fun i => (unitPrice i <? 0)%float = false /\
                   (quantity i <? 0)%float = false /\
                   (default 0 (taxRate i) <? 0)%float = false) items ->
  (subtotal (calculateCartTotals items) <? 0)%float = false /\
  (tax (calculateCartTotals items) <? 0)%float = false /\
  (total (calculateCartTotals items) <? 0)%float = false.
Proof.
  intros Hitems. unfold calculateCartTotals.
  set (start := {| subtotal := 0; tax := 0; total := 0 |}).
  assert (Hstart : has_sign false (Prim2SF (subtotal start)) /\
                   has_sign false (Prim2SF (tax start)) /\
                   has_sign false (Prim2SF (total start)))
    by (split_and!; reflexivity).
  clearbody start. revert start Hstart.
  induction Hitems as [|item rest (Hprice & Hqty & Hrate) _ IH];
    intros running (Hs & Ht & Htot).
  - cbn [fold_left]. split_and!; apply sign_not_negative; assumption.
  - cbn [fold_left]. apply IH. clear IH.
    apply ltb_zero_false in Hprice, Hqty, Hrate.
    assert (Hline : has_sign false
              (Prim2SF (Cart.roundCurrency (unitPrice item * quantity item)%float))).
    { apply roundCurrency_not_negative. rewrite mul_spec.
      apply SFmul_not_negative; assumption. }
    assert (Htax : has_sign false
              (Prim2SF (Cart.roundCurrency
                          (Cart.roundCurrency (unitPrice item * quantity item)%float
                           * (default 0 (taxRate item) / 100))%float))).
    { apply roundCurrency_not_negative. rewrite mul_spec.
      apply SFmul_not_negative; [apply sign_not_negative'; exact Hline|].
      rewrite div_spec.
      change (Prim2SF 100) with (S754_finite false 7036874417766400 (-46)).
      apply SFdiv_not_negative. exact Hrate. }
    cbn [subtotal tax total]. split_and!.
    + apply roundCurrency_add_sign; assumption.
    + apply roundCurrency_add_sign; assumption.
    + apply roundCurrency_not_negative, sign_not_negative'.
      rewrite add_spec. apply SFadd_sign; [|exact Htax].
      rewrite add_spec. apply SFadd_sign; assumption.
Qed.

(** ** The request wrapper: headers, address and outcomes *)

Section ApiOutcomes.

Variable env : option string.
Variable fetch : Request -> FetchOutcome.




(** X18.  [apiFetch] returns a value exactly when [fetch] yields a
    response with a status in 200-299 whose body is empty, the value being
    [undefined], or parses as JSON, the value being what it parses to. *)
Theorem apiFetch_returns (g : Global) (path : string) (options : ApiFetchOptions)
    (value : jsval) :
  snd (apiFetch env fetch g path options) = Return value <->
  exists response,
    fetch <$> fst (apiFetch env fetch g path options) = Some (Fulfilled response) /\
    ok response = true /\
    if truthy_text (responseText response)
    then JSON_parse (responseText response) = Some value
    else value = JUndefined.
Proof.
  destruct (fst (apiFetch env fetch g path options)) as [request|] eqn:Hsent.
  - rewrite (apiFetch_sent _ _ _ _ _ _ Hsent). cbn [fmap option_fmap option_map].
    destruct (fetch request) as [response|reason].
    + split.
      * intros H. exists response. split; [reflexivity|].
        destruct (ok response); cbn [negb] in H |- *; [|discriminate H].
        split; [reflexivity|].
        destruct (truthy_text (responseText response)); cbn [negb] in H.
        -- destruct (JSON_parse (responseText response)); [congruence|discriminate H].
        -- congruence.
      * intros (r & Hr & Hok & Hv). injection Hr as <-. rewrite Hok. cbn [negb].
        destruct (truthy_text (responseText response)); cbn [negb].
        -- rewrite Hv. reflexivity.
        -- rewrite Hv. reflexivity.
    + split; [discriminate|]. intros (r & Hr & _). discriminate Hr.
  - rewrite (apiFetch_not_sent _ _ _ _ _ Hsent).
    split; [discriminate|]. intros (r & Hr & _). discriminate Hr.
Qed.

(** X19.  Every [ApiError] that [apiFetch] throws comes from a response:
    it carries the status of the response, and either that status is
    outside 200-299 and the message is the status text, or the body did not
    parse and the error carries its text.  A request that could not be made
    is never reported as an [ApiError]. *)
Theorem apiFetch_throws_ApiError (g : Global) (path : string)
    (options : ApiFetchOptions) (e : ApiError) :
  snd (apiFetch env fetch g path options) = Throw (ThrownApiError e) ->
  exists response,
    fetch <$> fst (apiFetch env fetch g path options) = Some (Fulfilled response) /\
    err_status e = status response /\
    ((ok response = false /\ err_message e = statusText response /\
      err_body e = (if truthy_text (responseText response)
                    then default (JString (chars (responseText response)))
                                 (JSON_parse (responseText response))
                    else JNull)) \/
     (ok response = true /\ truthy_text (responseText response) = true /\
      JSON_parse (responseText response) = None /\
      err_message e = "Failed to parse response JSON"%string /\
      err_body e = JString (chars (responseText response)))).
Proof.
  destruct (fst (apiFetch env fetch g path options)) as [request|] eqn:Hsent;
    [|rewrite (apiFetch_not_sent _ _ _ _ _ Hsent); discriminate].
  rewrite (apiFetch_sent _ _ _ _ _ _ Hsent). cbn [fmap option_fmap option_map].
  destruct (fetch request) as [response|reason]; [|discriminate].
  intros H. exists response. split; [reflexivity|].
  destruct (ok response); cbn [negb] in H.
  - destruct (truthy_text (responseText response)); cbn [negb] in H; [|discriminate H].
    destruct (JSON_parse (responseText response)) as [v|]; [discriminate H|].
    injection H as <-. split; [reflexivity|]. right. repeat split.
  - injection H as <-. split; [reflexivity|]. left. repeat split.
Qed.

End ApiOutcomes.

(** One trailing slash of a base address is removed, and no more. *)
Lemma strip_trailing_slash_added (base : string) :
  strip_trailing_slash (base +:+ "/") = base.
Proof.
  induction base as [|c rest IH]; [reflexivity|].
  change (String c rest +:+ "/")%string with (String c (rest +:+ "/")).
  destruct (rest +:+ "/")%string as [|d tail] eqn:E.
  - destruct rest; discriminate E.
  - change (strip_trailing_slash (String c (String d tail)))
      with (String c (strip_trailing_slash (String d tail))).
    rewrite IH. reflexivity.
Qed.

(** X20.  A trailing slash of the base address and a missing leading slash
    of the path make no difference: with the base address [base/], the
    paths [p] and [/p] give the same request, whose address is [base/p]. *)
Theorem apiFetch_address (fetch : Request -> FetchOutcome) (g : Global)
    (base path : string) (options : ApiFetchOptions) :
  String_startsWith "/" path = false ->
  apiFetch (Some (base +:+ "/")) fetch g path options
  = apiFetch (Some (base +:+ "/")) fetch g ("/" +:+ path) options /\
  (forall request,
     fst (apiFetch (Some (base +:+ "/")) fetch g path options) = Some request ->
     url request = (base +:+ "/" +:+ path)%string).
Proof.
  intros H.
  assert (Hs : String_startsWith "/" ("/" +:+ path) = true)
    by (destruct path; reflexivity).
  split.
  - unfold apiFetch. rewrite H, Hs. reflexivity.
  - intros request Hsent.
    destruct (apiFetch_request _ _ _ _ _ _ Hsent) as (Hurl & _).
    rewrite Hurl, H. unfold API_BASE_URL. cbn [default from_option id].
    rewrite strip_trailing_slash_added. reflexivity.
Qed.

(** ** The page: how a submission ends *)

Section PageOutcomes.

Variable env : option string.
Variable fetch : Request -> FetchOutcome.

(** Runs [handleSubmit] through its validations, up to the request. *)
Ltac submission :=
  unfold handleSubmit, parsedReceivedAmount;
  repeat match goal with
         | |- context [if ?c then _ else _] =>
             lazymatch c with
             | Nat.eqb _ _ => destruct c eqn:?
             | negb (from_option _ _ _) => destruct c eqn:?
             | PrimFloat.leb _ _ => destruct c eqn:?
             end
         | |- context [match parseMoney ?s with _ => _ end] =>
             destruct (parseMoney s) as [parsed|] eqn:?
         end.

(** Takes the request and the completion of [apiFetch] apart. *)
Ltac order_sent request finished Hsent Hend :=
  match goal with
  | |- context [apiFetch ?e ?f ?g ?p ?o] =>
      pose proof (apiFetch_sent e f g p o) as Hsent;
      pose proof (apiFetch_not_sent e f g p o) as Hend;
      destruct (apiFetch e f g p o) as [[request|] finished];
      cbn [fst snd] in Hsent, Hend;
      [specialize (Hsent request eq_refl); clear Hend
      |specialize (Hend eq_refl); clear Hsent]
  end.

(** X21.  When [handleSubmit] ends without an error message, one request
    was made and [fetch] answered it with a status in 200-299; the cart is
    empty on the page and in the storage, the received amount and the memo
    are blank, the submission is no longer in progress, and the tender and
    the stored token are as they were. *)
Theorem checkout_completed (g : Global) (st : PageState) :
  let outcome := handleSubmit env fetch g st in
  errorMessage (state outcome) = None ->
  (exists request response,
     requests outcome = [request] /\
     fetch request = Fulfilled response /\
     ok response = true) /\
  cartItems (state outcome) = [] /\
  readCartItems (global outcome) = [] /\
  receivedAmount (state outcome) = EmptyString /\
  memo (state outcome) = EmptyString /\
  isSubmitting (state outcome) = false /\
  paymentMethod (state outcome) = paymentMethod st /\
  Auth.getAccessToken (global outcome) = Auth.getAccessToken g.
Proof.
  cbv zeta. submission; try discriminate.
  order_sent request finished Hsent Hend.
  - destruct finished as [response|error]; [|discriminate].
    intros _. cbn. split_and!; try reflexivity.
    + exists request.
      destruct (fetch request) as [r|reason]; [|discriminate Hsent].
      exists r. split_and!; try reflexivity.
      destruct (ok r); [reflexivity|discriminate Hsent].
    + apply cart_read_after_clear.
    + apply token_after_cart_clear.
  - rewrite Hend. discriminate.
Qed.

(** X22.  When [handleSubmit] ends with an error message, no order result
    is set, and the cart, the tender, the received amount, the memo and
    the global scope (the stored cart and token, the events) are as they
    were; at most one request was made, and if one was made the submission
    is no longer in progress. *)
Theorem checkout_not_completed (g : Global) (st : PageState) :
  let outcome := handleSubmit env fetch g st in
  errorMessage (state outcome) <> None ->
  orderResult (state outcome) = JNull /\
  cartItems (state outcome) = cartItems st /\
  paymentMethod (state outcome) = paymentMethod st /\
  receivedAmount (state outcome) = receivedAmount st /\
  memo (state outcome) = memo st /\
  global outcome = g /\
  List.length (requests outcome) <= 1 /\
  (requests outcome <> [] -> isSubmitting (state outcome) = false).
Proof.
  cbv zeta. submission;
    try (lazymatch goal with |- context [apiFetch] => fail | _ => idtac end;
         intros _; cbn; split_and!; try reflexivity; lia || congruence).
  destruct (apiFetch _ _ _ _ _) as [[request|] [response|error]];
    cbn; intros H; try congruence; split_and!; try reflexivity; lia || congruence.
Qed.

(** X23.  When the request of a submission cannot be made, the page shows
    the message for an unexpected error, and no order result. *)
Theorem network_failure_message (g : Global) (st : PageState) (request : Request)
    (reason : string) :
  let outcome := handleSubmit env fetch g st in
  requests outcome = [request] ->
  fetch request = Rejected reason ->
  errorMessage (state outcome) = Some (JString MSG_UNEXPECTED) /\
  orderResult (state outcome) = JNull.
Proof.
  cbv zeta. submission; try discriminate.
  order_sent request' finished Hsent Hend;
    [|destruct finished; discriminate].
  destruct finished as [response|error]; cbn [requests option_list];
    intros Hr Hf; injection Hr as ->; rewrite Hf in Hsent; [discriminate Hsent|].
  injection Hsent as ->. split; reflexivity.
Qed.

(** X24.  When the server answers the request of a submission with a
    status outside 200-299, the error message is set to: the body, if it is
    not JSON or is a JSON string; the [detail] of the body, if it has one
    that is neither [null] nor [undefined]; and otherwise, also for an
    empty body, the message that the checkout failed.  No order result is
    set. *)
Theorem server_rejection_message (g : Global) (st : PageState) (request : Request)
    (response : Response) :
  let outcome := handleSubmit env fetch g st in
  requests outcome = [request] ->
  fetch request = Fulfilled response ->
  ok response = false ->
  errorMessage (state outcome)
  = Some (if truthy_text (responseText response) then
            match JSON_parse (responseText response) with
            | None => JString (chars (responseText response))
            | Some (JString s) => JString s
            | Some body => nullish (get body "detail") (JString MSG_CHECKOUT_FAILED)
            end
          else JString MSG_CHECKOUT_FAILED) /\
  orderResult (state outcome) = JNull.
Proof.
  cbv zeta. submission; try discriminate.
  order_sent request' finished Hsent Hend;
    [|destruct finished; discriminate].
  destruct finished as [result|error]; cbn [requests option_list];
    intros Hr Hf Hok; injection Hr as ->; rewrite Hf, Hok in Hsent; cbn [negb] in Hsent;
    [discriminate Hsent|].
  injection Hsent as ->. split; [|reflexivity].
  cbn [state errorMessage setIsSubmitting setErrorMessage err_body new_ApiError].
  destruct (truthy_text (responseText response)); [|reflexivity].
  destruct (JSON_parse (responseText response)) as [[]|]; reflexivity.
Qed.

(** X25.  Emptying the cart from the page empties it on the page and in
    the storage, makes no request, and leaves the stored token and the
    other fields of the page as they were. *)
Theorem cart_emptied (g : Global) (st : PageState) :
  let outcome := handleClearCart g st in
  cartItems (state outcome) = [] /\
  readCartItems (global outcome) = [] /\
  requests outcome = [] /\
  Auth.getAccessToken (global outcome) = Auth.getAccessToken g /\
  setCartItems (cartItems st) (state outcome) = setCartItems (cartItems st) st.
Proof.
  cbv zeta. unfold handleClearCart. cbn [state global requests].
  split_and!; try reflexivity.
  - apply cart_read_after_clear.
  - apply token_after_cart_clear.
Qed.

End PageOutcomes.

(** ** Instances of the further properties *)

Lemma token_read_after_set_witness :
  Auth.getAccessToken (Auth.setAccessToken (Some "token-123"%string) empty_browser)
  = Some "token-123"%string.
Proof. apply (token_read_after_set empty_browser "token-123"); reflexivity. Defined.

Lemma stores_outside_browser_witness :
  Auth.setAccessToken (Some "token-123"%string) no_storage = no_storage /\
  Auth.clearAccessToken no_storage = no_storage /\
  writeCartItems sample_cart no_storage = no_storage /\
  clearCartItems no_storage = no_storage /\
  Auth.getAccessToken no_storage = None /\
  readCartItems no_storage = [].
Proof.
  apply (stores_outside_browser no_storage (Some "token-123"%string) sample_cart).
  reflexivity.
Defined.

Lemma writes_are_announced_witness :
  Scope.events (writeCartItems sample_cart signed_in)
  = {| type := CART_EVENT; detail := items_value sample_cart |} :: Scope.events signed_in /\
  Scope.events (clearCartItems signed_in)
  = {| type := CART_EVENT; detail := JArray [] |} :: Scope.events signed_in /\
  Scope.events (Auth.clearAccessToken signed_in)
  = {| type := Auth.AUTH_EVENT; detail := JNull |} :: Scope.events signed_in /\
  (truthy_string "t" = true ->
   Scope.events (Auth.setAccessToken (Some "t"%string) signed_in)
   = {| type := Auth.AUTH_EVENT; detail := JString "t" |} :: Scope.events signed_in).
Proof. apply (writes_are_announced signed_in sample_cart "t"). reflexivity. Defined.


Lemma sanitize_idempotent_witness :
  sanitizeCartItem (item_value alternate_item) = Some alternate_item.
Proof. apply (sanitize_idempotent alternate_record alternate_item). reflexivity. Defined.

Lemma parsed_amount_is_a_number_witness :
  is_nan 1100 = false /\ (1100 <=? 0)%float = negb (0 <? 1100)%float.
Proof.
  apply (parsed_amount_is_a_number "1,100.00" 1100). vm_compute. reflexivity.
Defined.

Lemma change_text_fixed_witness :
  Spec.fixed_two_decimals (View.changeText (computedChange (Some 1100%float) 1000.5)) = true.
Proof. apply (change_text_fixed (Some 1100%float) 1000.5). vm_compute. reflexivity. Defined.

Lemma totals_not_negative_witness :
  (subtotal (calculateCartTotals sample_cart) <? 0)%float = false /\
  (tax (calculateCartTotals sample_cart) <? 0)%float = false /\
  (total (calculateCartTotals sample_cart) <? 0)%float = false.
Proof. apply (totals_not_negative sample_cart). repeat constructor. Defined.

Lemma untaxed_totals_witness :
  tax (calculateCartTotals two_lines_0_004) = 0%float /\
  total (calculateCartTotals two_lines_0_004)
  = subtotal (calculateCartTotals two_lines_0_004).
Proof. apply (untaxed_totals two_lines_0_004). repeat constructor. Defined.


Lemma apiFetch_throws_ApiError_witness :
  exists response,
    bad_gateway_server
    <$> fst (apiFetch None bad_gateway_server signed_in "/orders" no_options)
    = Some (Fulfilled response) /\
    502%Z = status response /\
    ((ok response = false /\ "Bad Gateway"%string = statusText response /\
      JString "<html>Bad Gateway</html>"
      = (if truthy_text (responseText response)
         then default (JString (chars (responseText response)))
                      (JSON_parse (responseText response))
         else JNull)) \/
     (ok response = true /\ truthy_text (responseText response) = true /\
      JSON_parse (responseText response) = None /\
      "Bad Gateway"%string = "Failed to parse response JSON"%string /\
      JString "<html>Bad Gateway</html>" = JString (chars (responseText response)))).
Proof.
  apply (apiFetch_throws_ApiError None bad_gateway_server signed_in "/orders" no_options
           {| err_status := 502; err_body := JString "<html>Bad Gateway</html>";
              err_message := "Bad Gateway" |}).
  reflexivity.
Defined.

Lemma apiFetch_address_witness :
  apiFetch (Some ("https://pos.example" +:+ "/")) order_server signed_in "orders" no_options
  = apiFetch (Some ("https://pos.example" +:+ "/")) order_server signed_in
      ("/" +:+ "orders") no_options /\
  (forall request,
     fst (apiFetch (Some ("https://pos.example" +:+ "/")) order_server signed_in
            "orders" no_options) = Some request ->
     url request = ("https://pos.example" +:+ "/" +:+ "orders")%string).
Proof.
  apply (apiFetch_address order_server signed_in "https://pos.example" "orders" no_options).
  reflexivity.
Defined.

Lemma checkout_completed_witness :
  let outcome := handleSubmit None order_server signed_in ready in
  (exists request response,
     requests outcome = [request] /\
     order_server request = Fulfilled response /\
     ok response = true) /\
  cartItems (state outcome) = [] /\
  readCartItems (global outcome) = [] /\
  receivedAmount (state outcome) = EmptyString /\
  memo (state outcome) = EmptyString /\
  isSubmitting (state outcome) = false /\
  paymentMethod (state outcome) = paymentMethod ready /\
  Auth.getAccessToken (global outcome) = Auth.getAccessToken signed_in.
Proof.
  apply (checkout_completed None order_server signed_in ready).
  vm_compute. reflexivity.
Defined.

Lemma checkout_not_completed_witness :
  let outcome := handleSubmit None out_of_stock_server signed_in ready in
  orderResult (state outcome) = JNull /\
  cartItems (state outcome) = cartItems ready /\
  paymentMethod (state outcome) = paymentMethod ready /\
  receivedAmount (state outcome) = receivedAmount ready /\
  memo (state outcome) = memo ready /\
  global outcome = signed_in /\
  List.length (requests outcome) <= 1 /\
  (requests outcome <> [] -> isSubmitting (state outcome) = false).
Proof.
  apply (checkout_not_completed None out_of_stock_server signed_in ready).
  vm_compute. discriminate.
Defined.

Lemma network_failure_message_witness :
  errorMessage (state (handleSubmit None offline signed_in ready))
  = Some (JString MSG_UNEXPECTED) /\
  orderResult (state (handleSubmit None offline signed_in ready)) = JNull.
Proof.
  eapply (network_failure_message None offline signed_in ready _ "Failed to fetch").
  - vm_compute. reflexivity.
  - reflexivity.
Defined.

Lemma server_rejection_message_witness :
  errorMessage (state (handleSubmit None out_of_stock_server signed_in ready))
  = Some (JString "insufficient stock") /\
  orderResult (state (handleSubmit None out_of_stock_server signed_in ready)) = JNull.
Proof.
  eapply (server_rejection_message None out_of_stock_server signed_in ready _ out_of_stock).
  - vm_compute. reflexivity.
  - reflexivity.
  - reflexivity.
Defined.
